(** * UN Comtrade download scripts: a shallow embedding

    The repository holds two scripts, [04_download_comtrade.py] and
    [05_download_comtrade.py].  Both define [download_year],
    [download_dataset] and [main] over one module-level counter,
    [call_counter].  This development embeds the three functions of each
    script as state-passing programs over a world made of that counter and
    of the chronological trace of what the script did to the outside
    (HTTP round-trips, sleeps, CSV files written, lines printed), and proves
    properties of the quota accounting, the retry on HTTP 429, the
    year-by-year aggregation and the campaign driver.  The outside is given
    by two oracles, the HTTP service and the file system, and by the number
    of nested calls of [download_year] that the interpreter's recursion limit
    leaves room for. *)

From Stdlib Require Import ZArith Lia.
From stdpp Require Import base gmap strings list sorting.

Local Open Scope string_scope.
Local Open Scope list_scope.
Local Open Scope Z_scope.

(** ** Data *)

(** A JSON scalar of a returned record. *)
Inductive cell : Type :=
  | CStr (s : string)
  | CNum (n : Z)
  | CNull.

Global Instance cell_eq_dec : EqDecision cell.
Proof. solve_decision. Defined.

(** A record of the [data] array is a JSON object; a [pd.DataFrame] built from
    a list of such records has one row per record, in the order of the list.
    A column that a record lacks (NaN in pandas) is a key the row lacks. *)
Abbreviation row := (gmap string cell).
Abbreviation DataFrame := (list row).

(** The HTTP GET issued by [download_year]: [url], the one header, and the
    five query parameters.  [period] is [str(year)]; the year is kept as the
    integer it prints. *)
Record request : Type := Request {
  url : string;
  subscription_key : string;
  reporterCode : string;
  period : Z;
  partnerCode : string;
  flowCode : string;
  cmdCode : string
}.

(** What [response.json()] gives on a body: it raises on a body that is not
    JSON; otherwise the script looks for the key ['data'] and takes its
    length.  Bodies on which ['data' in data] or [len(data['data'])] raise
    behave like [JsonInvalid]: the exception is swallowed the same way. *)
Inductive json : Type :=
  | JsonInvalid
  | JsonObject (data : option (list row)).

(** The outcome of one call of [requests.get]: it raises (a connection error,
    a timeout, ..., or [RecursionError] when the interpreter has no room left
    on its stack for the call) or returns a response with a status code and a
    body. *)
Inductive reply : Type :=
  | NoResponse
  | Response (status_code : Z) (body : json).

(** Lines written by [print]; clock readings are left out of the lines that
    show one. *)
Inductive output : Type :=
  | Line (text : string)
  | RecordsLine (records : nat) (calls : Z)
  | TotalLine (calls limit : Z)
  | ClockLine (label : string).

(** What the script does to the outside, in the order it does it: calls of
    [requests.get] with their outcome, sleeps (in milliseconds), files
    written, lines printed. *)
Inductive event : Type :=
  | Get (r : request) (a : reply)
  | Sleep (ms : Z)
  | ToCsv (dir name : string) (df : DataFrame)
  | Print (line : output).

(** The world: the global [call_counter] and the trace so far. *)
Record state : Type := State {
  call_counter : Z;
  trace : list event
}.

(** Exceptions that the modelled code can raise. *)
Inductive exn : Type :=
  | SystemExit (code : Z)
  | KeyError (key : string)
  | RequestException
  | JSONDecodeError
  | RecursionError
  | OSError.

(** A run ends normally with a value, or with an exception. *)
Inductive result (A : Type) : Type :=
  | Ok (a : A) (s : state)
  | Raised (e : exn) (s : state).
Arguments Ok {A} a s.
Arguments Raised {A} e s.

Definition final {A} (r : result A) : state :=
  match r with
  | Ok _ s => s
  | Raised _ s => s
  end.

Definition M (A : Type) : Type := state -> result A.

Definition ret {A} (a : A) : M A := fun s => Ok a s.

Definition bind {A B} (m : M A) (k : A -> M B) : M B := fun s =>
  match m s with
  | Ok a s' => k a s'
  | Raised e s' => Raised e s'
  end.

Definition raise {A} (e : exn) : M A := fun s => Raised e s.

(** [try: body  except: handler] with a bare [except], which catches every
    exception; what the body did to the world before raising stays done. *)
Definition try_except {A} (body handler : M A) : M A := fun s =>
  match body s with
  | Ok a s' => Ok a s'
  | Raised _ s' => handler s'
  end.

Notation "'let*' x ':=' m 'in' k" := (bind m (fun x => k))
  (at level 10, x name, m at level 100, k at level 200).
Notation "m ';;;' k" := (bind m (fun _ => k))
  (at level 100, k at level 200, right associativity).

(** ** The outside world *)

(** The remote service and the network, as a deterministic function of the
    requests attempted so far (oldest first) and of the request at hand. *)
Definition oracle : Type := list request -> request -> reply.

Definition request_of (e : event) : option request :=
  match e with
  | Get r _ => Some r
  | _ => None
  end.

Definition requests_of (t : list event) : list request := omap request_of t.

(** The world after one more event. *)
Definition record (e : event) (s : state) : state :=
  {| call_counter := call_counter s; trace := trace s ++ [e] |}.

Definition emit (e : event) : M unit := fun s => Ok tt (record e s).

(** [requests.get(url, headers=headers, params=params, timeout=60)] *)
Definition requests_get (http : oracle) (r : request) : M (Z * json) := fun s =>
  let a := http (requests_of (trace s)) r in
  match a with
  | NoResponse => Raised RequestException (record (Get r a) s)
  | Response code body => Ok (code, body) (record (Get r a) s)
  end.

(** [requests.get] called when the nested calls of [download_year] have used
    up the room that the interpreter's recursion limit leaves: the call raises
    [RecursionError] on the way to the network, and nothing is received. *)
Definition requests_get_at_recursion_limit (r : request) : M (Z * json) := fun s =>
  Raised RecursionError (record (Get r NoResponse) s).

(** [response.json()] *)
Definition response_json (body : json) : M (option (list row)) :=
  match body with
  | JsonInvalid => raise JSONDecodeError
  | JsonObject data => ret data
  end.

(** [time.sleep] *)
Definition time_sleep (ms : Z) : M unit := emit (Sleep ms).

(** The CSV files written, in order. *)
Definition csv_of (e : event) : option (string * DataFrame) :=
  match e with
  | ToCsv _ name df => Some (name, df)
  | _ => None
  end.

Definition csv_written (t : list event) : list (string * DataFrame) := omap csv_of t.

(** The file system, as a deterministic function of the files written so far
    and of the file at hand: whether the write succeeds. *)
Definition storage : Type := list (string * DataFrame) -> string -> DataFrame -> bool.

(** [df.to_csv(os.path.join(dir, name), index=False)]: it raises [OSError]
    (a missing directory, a file that is locked or read-only, a full disk)
    when the file cannot be written. *)
Definition to_csv (disk : storage) (dir name : string) (df : DataFrame) : M unit := fun s =>
  if disk (csv_written (trace s)) name df then Ok tt (record (ToCsv dir name df) s)
  else Raised OSError s.

Definition print (line : output) : M unit := emit (Print line).

(** [sys.exit] *)
Definition sys_exit {A} (code : Z) : M A := raise (SystemExit code).

(** [call_counter += 1] *)
Definition bump (s : state) : state :=
  {| call_counter := call_counter s + 1; trace := trace s |}.

Definition incr_call_counter : M unit := fun s => Ok tt (bump s).

Definition read_call_counter : M Z := fun s => Ok (call_counter s) s.

(** [d[key]] on a dict with string keys. *)
Definition subscript (d : gmap string string) (key : string) : M string :=
  match d !! key with
  | Some v => ret v
  | None => raise (KeyError key)
  end.

(** [range(lo, hi)] *)
Definition range (lo hi : Z) : list Z := seqZ lo (hi - lo).

(** [pd.concat(frames, ignore_index=True)] *)
Definition pd_concat (frames : list DataFrame) : DataFrame := concat frames.

(** [df[column] = value] with a scalar: every row gets the value. *)
Definition set_column (column : string) (value : cell) (df : DataFrame) : DataFrame :=
  (fun r : row => <[column := value]> r) <$> df.

(** ** Configuration shared by the two scripts *)

Definition OUTPUT_DIR : string := "C:/Users/dafrb/Desktop/EAM_data/raw_data/comtrade".
Definition API_BASE : string := "https://comtradeapi.un.org/data/v1/get".
(** The subscription key is a literal in the scripts; its value plays no part
    in what follows and is not reproduced. *)
Definition API_KEY : string := "<subscription key>".

Definition COUNTRIES : gmap string string :=
  list_to_map
    [ ("Colombia", "170"); ("China", "156"); ("World", "0"); ("Chile", "152");
      ("Peru", "604"); ("Brazil", "076"); ("Argentina", "032"); ("Ecuador", "218") ].

Definition max_calls : Z := 500.

(** [call_counter >= max_calls - 50], the test of [download_dataset]
    and of [main]. *)
Definition near_limit (calls : Z) : bool := calls >=? max_calls - 50.

Definition initial_state : state := {| call_counter := 0; trace := [] |}.

(** ** [04_download_comtrade.py] *)

Module File04.
Section Script.
Context (http : oracle) (disk : storage).

(** [download_year], lines 45-73.  The retry on HTTP 429 is a nested call
    inside the [try] block; [depth] is the number of nested calls for which
    the interpreter's recursion limit leaves room.  In the call after these,
    [requests.get] raises [RecursionError], which the bare [except] swallows
    like any other exception, and [None] goes back through all the calls.
    Leaving the [try] block without a [return] falls to the [return None]
    after it, as the handler does. *)
Fixpoint download_year (depth : nat) (api_key reporter partner : string)
    (year : Z) (flow cmd_code : string) : M (option DataFrame) :=
  let url := API_BASE +:+ "/C/A/HS" in
  let params :=
    {| url := url; subscription_key := api_key; reporterCode := reporter;
       period := year; partnerCode := partner; flowCode := flow;
       cmdCode := cmd_code |} in
  match depth with
  | O =>
    (* the first statement of the [try] block raises; the rest is not reached *)
    try_except
      (let* response := requests_get_at_recursion_limit params in
       ret None)
      (ret None)
  | S depth' =>
    try_except
      (let* response := requests_get http params in
       incr_call_counter ;;;
       if response.1 =? 200 then
         let* data := response_json response.2 in
         match data with
         | Some rows =>
           if (0 <? length rows)%nat then ret (Some rows) else ret None
         | None => ret None
         end
       else if response.1 =? 429 then
         time_sleep 60000 ;;;
         download_year depth' api_key reporter partner year flow cmd_code
       else ret None)
      (ret None)
  end.

(** The [for] loop of [download_dataset], lines 79-86, over the years still
    to visit. *)
Fixpoint download_dataset_loop (depth : nat) (api_key reporter partner : string)
    (years : list Z) (flow cmd_code : string) (all_data : list DataFrame)
    : M (list DataFrame) :=
  match years with
  | [] => ret all_data
  | year :: years' =>
    let* df := download_year depth api_key reporter partner year flow cmd_code in
    let all_data :=
      match df with
      | Some d => all_data ++ [d]
      | None => all_data
      end in
    time_sleep 1500 ;;;
    let* calls := read_call_counter in
    if near_limit calls then ret all_data
    else download_dataset_loop depth api_key reporter partner years' flow cmd_code all_data
  end.

(** [download_dataset], lines 75-90. *)
Definition download_dataset (depth : nat) (api_key reporter partner : string)
    (start_year end_year : Z) (flow cmd_code : string) : M (option DataFrame) :=
  let* all_data :=
    download_dataset_loop depth api_key reporter partner
      (range start_year (end_year + 1)) flow cmd_code [] in
  match all_data with
  | [] => ret None
  | _ :: _ => ret (Some (pd_concat all_data))
  end.

(** [if df is not None: df.to_csv(...); print(...)], as after each of the
    first three downloads. *)
Definition save_dataset (name : string) (df : option DataFrame) : M unit :=
  match df with
  | Some d =>
    to_csv disk OUTPUT_DIR name d ;;;
    let* calls := read_call_counter in
    print (RecordsLine (length d) calls)
  | None => ret tt
  end.

(** The loop over the partner countries of download 4, lines 129-135. *)
Fixpoint lac_loop (depth : nat) (names : list string) (lac_data : list DataFrame)
    : M (list DataFrame) :=
  match names with
  | [] => ret lac_data
  | country_name :: names' =>
    let* reporter := subscript COUNTRIES "China" in
    let* partner := subscript COUNTRIES country_name in
    let* df := download_dataset depth API_KEY reporter partner 1992 2023 "X" "AG6" in
    let lac_data :=
      match df with
      | Some d => lac_data ++ [set_column "partner_country" (CStr country_name) d]
      | None => lac_data
      end in
    time_sleep 2000 ;;;
    lac_loop depth names' lac_data
  end.

(** Download 4, lines 126-140. *)
Definition download_lac (depth : nat) (names : list string) : M unit :=
  print (Line "[4/4] China exports to LAC countries (HS6)...") ;;;
  let* lac_data := lac_loop depth names [] in
  match lac_data with
  | [] => ret tt
  | _ :: _ =>
    let df_lac := pd_concat lac_data in
    to_csv disk OUTPUT_DIR "china_exports_to_lac_HS6.csv" df_lac ;;;
    let* calls := read_call_counter in
    print (RecordsLine (length df_lac) calls)
  end.

(** Downloads 1 and 2, lines 95-112. *)
Definition main_imports (depth : nat) : M unit :=
  print (ClockLine "Comtrade download started") ;;;
  print (Line "[1/4] Colombia imports from China (HS6)...") ;;;
  let* reporter := subscript COUNTRIES "Colombia" in
  let* partner := subscript COUNTRIES "China" in
  let* df := download_dataset depth API_KEY reporter partner 1992 2023 "M" "AG6" in
  save_dataset "colombia_imports_from_china_HS6.csv" df ;;;
  print (Line "[2/4] Colombia imports from World (HS6)...") ;;;
  let* reporter := subscript COUNTRIES "Colombia" in
  let* partner := subscript COUNTRIES "World" in
  let* df := download_dataset depth API_KEY reporter partner 1992 2023 "M" "AG6" in
  save_dataset "colombia_imports_from_world_HS6.csv" df.

(** The quota gate, lines 114-116. *)
Definition main_gate : M unit :=
  let* calls := read_call_counter in
  if near_limit calls then
    print (Line "Approaching daily limit. Exports pending for tomorrow.") ;;;
    sys_exit 0
  else ret tt.

(** Downloads 3 and 4 and the closing lines, lines 118-148. *)
Definition main_exports (depth : nat) : M unit :=
  print (Line "[3/4] Colombia exports to World (HS6)...") ;;;
  let* reporter := subscript COUNTRIES "Colombia" in
  let* partner := subscript COUNTRIES "World" in
  let* df := download_dataset depth API_KEY reporter partner 1992 2023 "X" "AG6" in
  save_dataset "colombia_exports_to_world_HS6.csv" df ;;;
  download_lac depth ["Chile"; "Peru"; "Brazil"; "Argentina"; "Ecuador"] ;;;
  print (ClockLine "Download complete") ;;;
  let* calls := read_call_counter in
  print (TotalLine calls max_calls) ;;;
  print (ClockLine "Duration") ;;;
  print (Line ("Output: " +:+ OUTPUT_DIR)).

(** [main], lines 92-148. *)
Definition main (depth : nat) : M unit :=
  main_imports depth ;;;
  main_gate ;;;
  main_exports depth.

End Script.
End File04.

(** ** [05_download_comtrade.py] *)

Module File05.
Section Script.
Context (http : oracle) (disk : storage).

(** [download_year], lines 44-72, as in the other script. *)
Fixpoint download_year (depth : nat) (api_key reporter partner : string)
    (year : Z) (flow cmd_code : string) : M (option DataFrame) :=
  let url := API_BASE +:+ "/C/A/HS" in
  let params :=
    {| url := url; subscription_key := api_key; reporterCode := reporter;
       period := year; partnerCode := partner; flowCode := flow;
       cmdCode := cmd_code |} in
  match depth with
  | O =>
    (* the first statement of the [try] block raises; the rest is not reached *)
    try_except
      (let* response := requests_get_at_recursion_limit params in
       ret None)
      (ret None)
  | S depth' =>
    try_except
      (let* response := requests_get http params in
       incr_call_counter ;;;
       if response.1 =? 200 then
         let* data := response_json response.2 in
         match data with
         | Some rows =>
           if (0 <? length rows)%nat then ret (Some rows) else ret None
         | None => ret None
         end
       else if response.1 =? 429 then
         time_sleep 60000 ;;;
         download_year depth' api_key reporter partner year flow cmd_code
       else ret None)
      (ret None)
  end.

(** The [for] loop of [download_dataset], lines 78-85. *)
Fixpoint download_dataset_loop (depth : nat) (api_key reporter partner : string)
    (years : list Z) (flow cmd_code : string) (all_data : list DataFrame)
    : M (list DataFrame) :=
  match years with
  | [] => ret all_data
  | year :: years' =>
    let* df := download_year depth api_key reporter partner year flow cmd_code in
    let all_data :=
      match df with
      | Some d => all_data ++ [d]
      | None => all_data
      end in
    time_sleep 1500 ;;;
    let* calls := read_call_counter in
    if near_limit calls then ret all_data
    else download_dataset_loop depth api_key reporter partner years' flow cmd_code all_data
  end.

(** [download_dataset], lines 74-89. *)
Definition download_dataset (depth : nat) (api_key reporter partner : string)
    (start_year end_year : Z) (flow cmd_code : string) : M (option DataFrame) :=
  let* all_data :=
    download_dataset_loop depth api_key reporter partner
      (range start_year (end_year + 1)) flow cmd_code [] in
  match all_data with
  | [] => ret None
  | _ :: _ => ret (Some (pd_concat all_data))
  end.

(** [if df is not None: df.to_csv(...)] *)
Definition save_dataset (name : string) (df : option DataFrame) : M unit :=
  match df with
  | Some d => to_csv disk OUTPUT_DIR name d
  | None => ret tt
  end.

(** The loop over the partner countries, lines 117-123. *)
Fixpoint lac_loop (depth : nat) (names : list string) (lac_data : list DataFrame)
    : M (list DataFrame) :=
  match names with
  | [] => ret lac_data
  | country_name :: names' =>
    let* reporter := subscript COUNTRIES "China" in
    let* partner := subscript COUNTRIES country_name in
    let* df := download_dataset depth API_KEY reporter partner 1992 2023 "X" "AG6" in
    let lac_data :=
      match df with
      | Some d => lac_data ++ [set_column "partner_country" (CStr country_name) d]
      | None => lac_data
      end in
    time_sleep 2000 ;;;
    lac_loop depth names' lac_data
  end.

(** The last download, lines 115-127. *)
Definition download_lac (depth : nat) (names : list string) : M unit :=
  let* lac_data := lac_loop depth names [] in
  match lac_data with
  | [] => ret tt
  | _ :: _ => to_csv disk OUTPUT_DIR "china_exports_to_lac_HS6.csv" (pd_concat lac_data)
  end.

(** The first two downloads, lines 94-104. *)
Definition main_imports (depth : nat) : M unit :=
  let* reporter := subscript COUNTRIES "Colombia" in
  let* partner := subscript COUNTRIES "China" in
  let* df := download_dataset depth API_KEY reporter partner 1992 2023 "M" "AG6" in
  save_dataset "colombia_imports_from_china_HS6.csv" df ;;;
  let* reporter := subscript COUNTRIES "Colombia" in
  let* partner := subscript COUNTRIES "World" in
  let* df := download_dataset depth API_KEY reporter partner 1992 2023 "M" "AG6" in
  save_dataset "colombia_imports_from_world_HS6.csv" df.

(** The quota gate, lines 106-107. *)
Definition main_gate : M unit :=
  let* calls := read_call_counter in
  if near_limit calls then sys_exit 0 else ret tt.

(** The last two downloads, lines 109-127. *)
Definition main_exports (depth : nat) : M unit :=
  let* reporter := subscript COUNTRIES "Colombia" in
  let* partner := subscript COUNTRIES "World" in
  let* df := download_dataset depth API_KEY reporter partner 1992 2023 "X" "AG6" in
  save_dataset "colombia_exports_to_world_HS6.csv" df ;;;
  download_lac depth ["Chile"; "Peru"; "Brazil"; "Argentina"; "Ecuador"].

(** [main], lines 91-127. *)
Definition main (depth : nat) : M unit :=
  main_imports depth ;;;
  main_gate ;;;
  main_exports depth.

End Script.
End File05.

(** ** Reading a trace *)

(** The request of [download_year] for a year. *)
Definition year_request (api_key reporter partner : string) (year : Z)
    (flow cmd_code : string) : request :=
  {| url := API_BASE +:+ "/C/A/HS"; subscription_key := api_key;
     reporterCode := reporter; period := year; partnerCode := partner;
     flowCode := flow; cmdCode := cmd_code |}.

(** Round-trips attempted. *)
Definition attempts (t : list event) : Z := Z.of_nat (length (requests_of t)).

Definition answered (e : event) : bool :=
  match e with
  | Get _ (Response _ _) => true
  | _ => false
  end.

(** Round-trips on which [requests.get] returned a response. *)
Definition responses (t : list event) : Z := Z.of_nat (length (filter answered t)).

Definition failed (e : event) : bool :=
  match e with
  | Get _ NoResponse => true
  | _ => false
  end.

(** Round-trips on which [requests.get] raised. *)
Definition unanswered (t : list event) : Z := Z.of_nat (length (filter failed t)).

(** The rows that a round-trip delivers: those of the [data] array of a
    status-200 response, nothing otherwise. *)
Definition rows_of_reply (a : reply) : list row :=
  match a with
  | Response code (JsonObject (Some rows)) => if code =? 200 then rows else []
  | _ => []
  end.

Definition rows_of_event (e : event) : list row :=
  match e with
  | Get _ a => rows_of_reply a
  | _ => []
  end.

Definition success_rows (t : list event) : list row := flat_map rows_of_event t.

(** The rows of what [download_year] or [download_dataset] returns. *)
Definition rows_of (df : option DataFrame) : list row := default [] df.

Definition is_print (e : event) : bool :=
  match e with
  | Print _ => true
  | _ => false
  end.

(** A trace without what was printed. *)
Definition silent (t : list event) : list event := filter (fun e => is_print e = false) t.

(** ** Stub services *)

Definition one_row (year : Z) : row := {[ "period" := CNum year ]}.

(** Never answers: every [requests.get] raises. *)
Definition unreachable : oracle := fun _ _ => NoResponse.

(** Answers every request with status 200 and no [data]. *)
Definition always_empty : oracle := fun _ _ => Response 200 (JsonObject None).

(** Rows for every year but 1993, for which the [data] array is empty. *)
Definition gap_in_1993 : oracle := fun _ r =>
  if period r =? 1993 then Response 200 (JsonObject (Some []))
  else Response 200 (JsonObject (Some [one_row (period r); one_row (period r)])).

(** Status 429 on the first [n] attempts, then one row for the year asked. *)
Definition throttled_first (n : nat) : oracle := fun past r =>
  if (length past <? n)%nat then Response 429 JsonInvalid
  else Response 200 (JsonObject (Some [one_row (period r)])).

(** One row for the year 1992, no [data] for the other years. *)
Definition rows_in_1992 : oracle := fun _ r =>
  if period r =? 1992 then Response 200 (JsonObject (Some [one_row 1992]))
  else Response 200 (JsonObject None).

(** A world in which [n] calls were counted before the trace begins. *)
Definition after_calls (n : Z) : state := {| call_counter := n; trace := [] |}.

(** One row for every year asked. *)
Definition always_one_row : oracle := fun _ r =>
  Response 200 (JsonObject (Some [one_row (period r)])).

(** ** Stub file systems *)

(** Every write succeeds. *)
Definition always_writable : storage := fun _ _ _ => true.

(** Every write fails. *)
Definition read_only : storage := fun _ _ _ => false.

(** Whether a reply is an HTTP 429. *)
Definition throttled (a : reply) : bool :=
  match a with
  | Response code _ => code =? 429
  | NoResponse => false
  end.

(** The events of [k] throttled attempts of a request, each followed by the
    sixty seconds of cooldown, when [past] are the requests attempted
    before. *)
Fixpoint retry_trace (http : oracle) (past : list request) (r : request) (k : nat)
    : list event :=
  match k with
  | O => []
  | S k' => Get r (http past r) :: Sleep 60000 :: retry_trace http (past ++ [r]) r k'
  end.

(** What [download_year] leaves in the trace: attempts of one request and
    cooldowns. *)
Definition year_event (req : request) (e : event) : Prop :=
  (exists a, e = Get req a) \/ e = Sleep 60000.

(** What [download_dataset] leaves in the trace: attempts of the requests of
    its years, and sleeps; no file, no printed line. *)
Definition dataset_event (api_key reporter partner flow cmd_code : string)
    (years : list Z) (e : event) : Prop :=
  match e with
  | Get req _ =>
    exists y, y ∈ years /\ req = year_request api_key reporter partner y flow cmd_code
  | Sleep _ => True
  | _ => False
  end.

(** The years asked for, in the order of the attempts. *)
Definition periods (t : list event) : list Z := period <$> requests_of t.

(** The frames appended by an iteration of the loop of [download_dataset]. *)
Definition appended (all_data : list DataFrame) (df : option DataFrame) : list DataFrame :=
  match df with
  | Some d => all_data ++ [d]
  | None => all_data
  end.

(** What [download_dataset] returns for the frames gathered. *)
Definition gathered (all_data : list DataFrame) : option DataFrame :=
  match all_data with
  | [] => None
  | _ :: _ => Some (pd_concat all_data)
  end.

(** The frames that the loop of [download_dataset] had appended: none of them
    empty. *)
Definition no_empty_frame (frames : list DataFrame) : Prop :=
  Forall (fun d : DataFrame => d <> []) frames.

(** The world after [k] throttled attempts of a request and their
    cooldowns. *)
Definition retried (http : oracle) (req : request) (k : nat) (s : state) : state :=
  {| call_counter := call_counter s + Z.of_nat k;
     trace := trace s ++ retry_trace http (requests_of (trace s)) req k |}.

(** ** Reading the trace of [main] *)

(** The download a request belongs to, numbered as in the scripts' header:
    1 and 2 are the imports of Colombia from China and from the world, 3 its
    exports to the world, 4 the exports of China to the partner countries. *)
Definition dataset_no (req : request) : nat :=
  if decide (flowCode req = "M") then
    if decide (partnerCode req = "156") then 1%nat else 2%nat
  else if decide (reporterCode req = "170") then 3%nat else 4%nat.

(** The download a CSV file holds. *)
Definition csv_no (name : string) : nat :=
  if decide (name = "colombia_imports_from_china_HS6.csv") then 1%nat
  else if decide (name = "colombia_imports_from_world_HS6.csv") then 2%nat
  else if decide (name = "colombia_exports_to_world_HS6.csv") then 3%nat
  else 4%nat.

Definition phase_of (e : event) : option nat :=
  match e with
  | Get req _ => Some (dataset_no req)
  | ToCsv _ name _ => Some (csv_no name)
  | _ => None
  end.

(** The downloads that the attempts and the files of a trace belong to, in
    the order of the trace. *)
Definition phases (t : list event) : list nat := omap phase_of t.

(** A file is written with at least one row. *)
Definition sound_event (e : event) : Prop :=
  match e with
  | ToCsv _ _ df => df <> []
  | _ => True
  end.

(** A program that works on downloads [lo] to [hi], in order: whatever the
    world it starts in and however it ends, it only adds to the trace, the
    counter grows by the number of responses received, no file is written
    empty, and the attempts and files added belong to downloads [lo] to [hi],
    in ascending order.  [V] holds of the value it returns. *)
Definition steps {A} (lo hi : nat) (m : M A) (V : A -> Prop) : Prop :=
  forall s, exists new,
    trace (final (m s)) = trace s ++ new
    /\ call_counter (final (m s)) = call_counter s + responses new
    /\ Forall sound_event new
    /\ Forall (fun n => (lo <= n <= hi)%nat) (phases new)
    /\ StronglySorted le (phases new)
    /\ forall a s', m s = Ok a s' -> V a.

(** The quota gate of a campaign [main] made of the downloads [imports], the
    gate and the downloads [exports]: the downloads go in the order of their
    numbers; once the imports are done, a counter within 50 of the limit ends
    the run with exit status 0 and nothing more is fetched or written;
    otherwise the exports follow. *)
Definition campaign_gated (main imports exports : M unit) : Prop :=
  forall s,
    (exists new,
       trace (final (main s)) = trace s ++ new /\ StronglySorted le (phases new))
    /\ forall s2, imports s = Ok tt s2 ->
         if near_limit (call_counter s2) then
           exists s' new,
             main s = Raised (SystemExit 0) s'
             /\ requests_of (trace s') = requests_of (trace s2)
             /\ csv_written (trace s') = csv_written (trace s2)
             /\ trace s' = trace s ++ new
             /\ Forall (fun n => (1 <= n <= 2)%nat) (phases new)
         else main s = exports s2.

(** The sub-runs of the loop over the partner countries: for each name in
    turn, the code of the country, what [download_dataset] returns for it,
    and the two seconds of wait. *)
Inductive partner_runs (http : oracle) (depth : nat)
    : list string -> state -> list (string * option DataFrame) -> state -> Prop :=
  | partner_runs_nil s : partner_runs http depth [] s [] s
  | partner_runs_cons name code names s df s1 runs s2 :
      COUNTRIES !! name = Some code ->
      File04.download_dataset http depth API_KEY "156" code 1992 2023 "X" "AG6" s = Ok df s1 ->
      partner_runs http depth names (record (Sleep 2000) s1) runs s2 ->
      partner_runs http depth (name :: names) s ((name, df) :: runs) s2.

(** The rows of a sub-run, labelled with the name of its partner. *)
Definition labelled (run : string * option DataFrame) : DataFrame :=
  set_column "partner_country" (CStr run.1) (rows_of run.2).

(** ** Comparing the two scripts *)

(** Two worlds that differ in what was printed only. *)
Definition alike (s4 s5 : state) : Prop :=
  call_counter s4 = call_counter s5 /\ silent (trace s4) = silent (trace s5).

(** Two runs that end the same way, with the same value or exception, in
    worlds that are alike. *)
Definition agree {A} (r4 r5 : result A) : Prop :=
  match r4, r5 with
  | Ok a4 s4, Ok a5 s5 => a4 = a5 /\ alike s4 s5
  | Raised e4 s4, Raised e5 s5 => e4 = e5 /\ alike s4 s5
  | _, _ => False
  end.

Definition simulates {A} (m4 m5 : M A) : Prop :=
  forall s4 s5, alike s4 s5 -> agree (m4 s4) (m5 s5).

(** The frames that the loop over the partners appends for its sub-runs: one
    labelled frame for each sub-run that returned a frame. *)
Definition labelled_frames (runs : list (string * option DataFrame)) : list DataFrame :=
  flat_map
    (fun run : string * option DataFrame =>
       match run.2 with
       | Some d => [set_column "partner_country" (CStr run.1) d]
       | None => []
       end)
    runs.

(** A row and the row that [set_column] makes of it. *)
Definition relabelled (column : string) (value : cell) (r r' : row) : Prop :=
  r' !! column = Some value /\ forall col, col <> column -> r' !! col = r !! col.

(** ** Further readings of a trace *)

(** Attempts and waits in turn: every attempt is followed at once by a wait
    of at least a second and a half. *)
Fixpoint paced (t : list event) : Prop :=
  match t with
  | [] => True
  | Get _ _ :: Sleep ms :: t' => 1500 <= ms /\ paced t'
  | _ => False
  end.

(** A request of [download_dataset] for one of the years [lo] to [hi]. *)
Definition asked_by (api_key reporter partner : string) (lo hi : Z)
    (flow cmd_code : string) (req : request) : Prop :=
  req = year_request api_key reporter partner (period req) flow cmd_code
  /\ lo <= period req <= hi.

(** A service that never answers with status 429. *)
Definition never_throttles (http : oracle) : Prop :=
  forall past r, throttled (http past r) = false.

(** A file system on which every write succeeds. *)
Definition never_fails (disk : storage) : Prop :=
  forall written name df, disk written name df = true.

(** How a run may end: with a value, by [sys.exit(0)], or, where
    [write_errors] allows it, with the [OSError] of a write that failed. *)
Definition tolerable (write_errors : bool) {A} (r : result A) : Prop :=
  match r with
  | Ok _ _ => True
  | Raised e _ => e = SystemExit 0 \/ (write_errors = true /\ e = OSError)
  end.

Definition ends (write_errors : bool) {A} (m : M A) : Prop :=
  forall s, tolerable write_errors (m s).

(** A program that, started with room for [n] more calls before the
    threshold, returns after exactly [n] attempts, the counter grown by [n]
    at most. *)
Definition spends (n : Z) {A} (m : M A) : Prop :=
  forall s, call_counter s + n < max_calls - 50 ->
    exists a s' new,
      m s = Ok a s'
      /\ trace s' = trace s ++ new
      /\ attempts new = n
      /\ call_counter s <= call_counter s' <= call_counter s + n.

(** * Proofs *)

(** ** Results *)

Lemma Ok_inj {A} (a a' : A) (s s' : state) : Ok a s = Ok a' s' -> a = a' /\ s = s'.
Proof. by intros [= -> ->]. Qed.

(** ** Reading a trace piecewise *)

Lemma requests_of_app (t1 t2 : list event) :
  requests_of (t1 ++ t2) = requests_of t1 ++ requests_of t2.
Proof. apply omap_app. Qed.

Lemma responses_app (t1 t2 : list event) :
  responses (t1 ++ t2) = responses t1 + responses t2.
Proof. unfold responses. rewrite filter_app, length_app. lia. Qed.

Lemma attempts_app (t1 t2 : list event) :
  attempts (t1 ++ t2) = attempts t1 + attempts t2.
Proof. unfold attempts. rewrite requests_of_app, length_app. lia. Qed.

Lemma success_rows_app (t1 t2 : list event) :
  success_rows (t1 ++ t2) = success_rows t1 ++ success_rows t2.
Proof. apply flat_map_app. Qed.

Lemma csv_written_app (t1 t2 : list event) :
  csv_written (t1 ++ t2) = csv_written t1 ++ csv_written t2.
Proof. apply omap_app. Qed.

Lemma silent_app (t1 t2 : list event) : silent (t1 ++ t2) = silent t1 ++ silent t2.
Proof. apply filter_app. Qed.

Lemma unanswered_app (t1 t2 : list event) :
  unanswered (t1 ++ t2) = unanswered t1 + unanswered t2.
Proof. unfold unanswered. rewrite filter_app, length_app. lia. Qed.

Lemma attempts_split (t : list event) : attempts t = responses t + unanswered t.
Proof.
  induction t as [|e t IH]; [done|].
  change (e :: t) with ([e] ++ t). rewrite responses_app, attempts_app, unanswered_app, IH.
  assert (attempts [e] = responses [e] + unanswered [e]); [|lia].
  destruct e as [r [|code body]| | |]; reflexivity.
Qed.

Lemma success_rows_nil (t : list event) :
  success_rows t = [] <-> forall e, e ∈ t -> rows_of_event e = [].
Proof.
  induction t as [|e t IH]; cbn.
  - split; [intros _ e He; by apply elem_of_nil in He|done].
  - split.
    + intros [He Ht]%app_eq_nil e' [->|Hin]%elem_of_cons; [done|]. by apply IH.
    + intros H. rewrite (H e) by left. cbn. apply IH. intros e' He'. apply H. by right.
Qed.

Lemma periods_app (t1 t2 : list event) : periods (t1 ++ t2) = periods t1 ++ periods t2.
Proof. unfold periods. by rewrite requests_of_app, fmap_app. Qed.

Lemma periods_year_events (req : request) (t : list event) :
  Forall (year_event req) t -> Forall (fun y => y = period req) (periods t).
Proof.
  induction 1 as [|e t He _ IH]; [constructor|].
  destruct He as [[a ->]| ->]; [|exact IH].
  constructor; [done|exact IH].
Qed.

Lemma periods_dataset_events k r p f c years (t : list event) :
  Forall (dataset_event k r p f c years) t -> Forall (fun y => y ∈ years) (periods t).
Proof.
  induction 1 as [|e t He _ IH]; [constructor|].
  destruct e as [req a|ms|dir name df|line]; try done.
  destruct He as (y & Hy & ->). constructor; [done|exact IH].
Qed.

Lemma year_events_dataset k r p f c y years (t : list event) :
  y ∈ years ->
  Forall (year_event (year_request k r p y f c)) t ->
  Forall (dataset_event k r p f c years) t.
Proof.
  intros Hy Ht. eapply Forall_impl; [exact Ht|]. intros e [[a ->]| ->]; [|done].
  by exists y.
Qed.

Lemma dataset_events_mono k r p f c years years' (t : list event) :
  years ⊆ years' ->
  Forall (dataset_event k r p f c years) t ->
  Forall (dataset_event k r p f c years') t.
Proof.
  intros Hsub Ht. eapply Forall_impl; [exact Ht|].
  intros [req a|ms|dir name df|line]; try done.
  intros (y & Hy & ->). exists y. split; [by apply Hsub|done].
Qed.

Lemma sorted_constant (y : Z) (l : list Z) :
  Forall (fun z => z = y) l -> StronglySorted Z.le l.
Proof.
  induction 1 as [|z l -> Hl IH]; constructor; [done|].
  eapply Forall_impl; [exact Hl|]. intros z ->. lia.
Qed.

Lemma concat_appended (all : list DataFrame) (df : option DataFrame) :
  concat (appended all df) = concat all ++ rows_of df.
Proof.
  destruct df as [d|]; cbn.
  - by rewrite concat_app; cbn; rewrite app_nil_r.
  - by rewrite app_nil_r.
Qed.

Lemma no_empty_frame_appended (all : list DataFrame) (df : option DataFrame) :
  df <> Some [] -> no_empty_frame all -> no_empty_frame (appended all df).
Proof.
  intros Hne Hall. destruct df as [d|]; [|done].
  apply Forall_app. split; [done|]. constructor; [congruence|constructor].
Qed.

Lemma no_empty_frame_concat (all : list DataFrame) :
  no_empty_frame all -> concat all = [] -> all = [].
Proof.
  intros Hall Hc. destruct Hall as [|d all Hd _]; [done|].
  cbn in Hc. apply app_eq_nil in Hc as [-> _]. done.
Qed.

(** ** [range] *)

Lemma elem_of_range (lo hi y : Z) : y ∈ range lo hi <-> lo <= y < hi.
Proof. unfold range. rewrite elem_of_seqZ. lia. Qed.

Lemma range_cons (lo hi : Z) : lo < hi -> range lo hi = lo :: range (lo + 1) hi.
Proof.
  intros H. unfold range. rewrite seqZ_cons by lia.
  f_equal. f_equal; lia.
Qed.

Lemma range_split (lo y hi : Z) :
  lo <= y < hi -> range lo hi = range lo y ++ y :: range (y + 1) hi.
Proof.
  intros H. rewrite <- (range_cons y hi) by lia. unfold range.
  replace (hi - lo) with ((y - lo) + (hi - y)) by lia.
  rewrite seqZ_app by lia. do 2 f_equal. lia.
Qed.

Lemma range_sorted (lo hi : Z) : StronglySorted Z.le (range lo hi).
Proof.
  unfold range. generalize (hi - lo). intros n. revert lo.
  induction (Z.to_nat n) as [|m IH] eqn:E in n |- *; intros lo.
  - rewrite seqZ_nil by lia. constructor.
  - rewrite seqZ_cons by lia. constructor; [apply IH; lia|].
    apply Forall_forall. intros z Hz. apply elem_of_seqZ in Hz. lia.
Qed.

(** ** [download_year] *)

Section Year.
Context (http : oracle).

Lemma download_year_at_limit k r p y f c s :
  File04.download_year http O k r p y f c s =
    Ok None (record (Get (year_request k r p y f c) NoResponse) s).
Proof. reflexivity. Qed.

Lemma download_year_unfold depth k r p y f c s :
  File04.download_year http (S depth) k r p y f c s =
    let req := year_request k r p y f c in
    let a := http (requests_of (trace s)) req in
    let s1 := record (Get req a) s in
    match a with
    | NoResponse => Ok None s1
    | Response code body =>
      if code =? 200 then
        match body with
        | JsonObject (Some rows) =>
          if (0 <? length rows)%nat then Ok (Some rows) (bump s1)
          else Ok None (bump s1)
        | _ => Ok None (bump s1)
        end
      else if code =? 429 then
        try_except (File04.download_year http depth k r p y f c) (ret None)
          (record (Sleep 60000) (bump s1))
      else Ok None (bump s1)
    end.
Proof.
  cbn [File04.download_year]. unfold try_except, bind, requests_get; cbn zeta.
  unfold year_request.
  destruct (http (requests_of (trace s)) _) as [|code body]; [reflexivity|].
  unfold incr_call_counter; cbn [fst snd].
  destruct (code =? 200).
  - destruct body as [|[rows|]]; [reflexivity| |reflexivity].
    destruct rows; reflexivity.
  - destruct (code =? 429); [|reflexivity].
    unfold time_sleep, emit.
    destruct (File04.download_year http depth k r p y f c _); reflexivity.
Qed.

(** No exception leaves [download_year]. *)
Lemma download_year_no_raise depth k r p y f c s e s' :
  File04.download_year http depth k r p y f c s <> Raised e s'.
Proof.
  destruct depth as [|depth]; [by rewrite download_year_at_limit|].
  rewrite download_year_unfold; cbn zeta.
  destruct (http _ _) as [|code body]; [done|].
  destruct (code =? 200).
  - destruct body as [|[rows|]]; [done| |done].
    by destruct (0 <? length rows)%nat.
  - destruct (code =? 429); [|done].
    unfold try_except.
    by destruct (File04.download_year http depth k r p y f c _).
Qed.

Lemma download_year_step depth k r p y f c s :
  File04.download_year http (S depth) k r p y f c s =
    let req := year_request k r p y f c in
    let a := http (requests_of (trace s)) req in
    let s1 := record (Get req a) s in
    match a with
    | NoResponse => Ok None s1
    | Response code body =>
      if code =? 200 then
        match body with
        | JsonObject (Some rows) =>
          if (0 <? length rows)%nat then Ok (Some rows) (bump s1)
          else Ok None (bump s1)
        | _ => Ok None (bump s1)
        end
      else if code =? 429 then
        File04.download_year http depth k r p y f c (record (Sleep 60000) (bump s1))
      else Ok None (bump s1)
    end.
Proof.
  rewrite download_year_unfold; cbn zeta.
  destruct (http _ _) as [|code body]; [done|].
  destruct (code =? 200); [done|]. destruct (code =? 429); [|done].
  unfold try_except.
  destruct (File04.download_year http depth k r p y f c _) eqn:E; try done.
  by apply download_year_no_raise in E.
Qed.

(** What a call of [download_year] adds to the world. *)
Lemma download_year_spec depth k r p y f c s :
  let req := year_request k r p y f c in
  let res := File04.download_year http depth k r p y f c s in
  exists new,
    trace (final res) = trace s ++ new
    /\ call_counter (final res) = call_counter s + responses new
    /\ Forall (year_event req) new
    /\ (exists a rest, new = Get req a :: rest)
    /\ match res with
       | Ok df _ => rows_of df = success_rows new /\ df <> Some []
       | Raised _ _ => False
       end.
Proof.
  cbn zeta. revert s. induction depth as [|depth IH]; intros s.
  { rewrite download_year_at_limit. set (req := year_request k r p y f c).
    exists [Get req NoResponse]. cbn [final].
    split; [done|]. split; [change (responses _) with 0; cbn; lia|].
    split; [constructor; [left; eauto|constructor]|].
    split; [eauto|]. by split. }
  rewrite download_year_step; cbn zeta.
  set (req := year_request k r p y f c).
  destruct (http (requests_of (trace s)) req) as [|code body] eqn:Ha.
  { exists [Get req NoResponse]. cbn [final].
    split; [done|]. split; [change (responses _) with 0; cbn; lia|].
    split; [constructor; [left; eauto|constructor]|].
    split; [eauto|]. by split. }
  assert (Hone : forall df, (rows_of df = rows_of_reply (Response code body)) ->
    df <> Some [] ->
    exists new, trace (bump (record (Get req (Response code body)) s)) = trace s ++ new
    /\ call_counter (bump (record (Get req (Response code body)) s))
       = call_counter s + responses new
    /\ Forall (year_event req) new
    /\ (exists a rest, new = Get req a :: rest)
    /\ rows_of df = success_rows new /\ df <> Some []).
  { intros df Hdf Hne. exists [Get req (Response code body)].
    split; [done|]. split; [done|].
    split; [constructor; [left; eauto|constructor]|].
    split; [eauto|]. split; [|done].
    cbn [success_rows flat_map rows_of_event]. by rewrite app_nil_r. }
  destruct (code =? 200) eqn:H200.
  - destruct body as [|[rows|]].
    + apply (Hone None); [by cbn|done].
    + destruct rows as [|row0 rows].
      * apply (Hone None); [cbn; by rewrite H200|done].
      * apply (Hone (Some (row0 :: rows))); [cbn; by rewrite H200|done].
    + apply (Hone None); [by cbn|done].
  - destruct (code =? 429) eqn:H429.
    + destruct (IH (record (Sleep 60000) (bump (record (Get req (Response code body)) s))))
        as (new & Ht & Hc & Hev & _ & Hres).
      exists (Get req (Response code body) :: Sleep 60000 :: new).
      split; [|split; [|split; [|split]]].
      * rewrite Ht. cbn. by rewrite <- !app_assoc.
      * rewrite Hc. cbn [call_counter record bump].
        change (Get req (Response code body) :: Sleep 60000 :: new)
          with ([Get req (Response code body); Sleep 60000] ++ new).
        rewrite responses_app.
        change (responses [Get req (Response code body); Sleep 60000]) with 1. lia.
      * constructor; [left; eauto|]. constructor; [by right|done].
      * eauto.
      * destruct (File04.download_year http depth k r p y f c _); [|done].
        destruct Hres as [Hrows Hne]. split; [|done].
        rewrite Hrows. cbn [success_rows flat_map rows_of_event rows_of_reply].
        destruct body as [|[rows|]]; try done. by rewrite H200.
    + apply (Hone None); [|done].
      cbn. destruct body as [|[rows|]]; try done. by rewrite H200.
Qed.

Lemma download_dataset_loop_step depth k r p y years f c all s :
  File04.download_dataset_loop http depth k r p (y :: years) f c all s =
    match File04.download_year http depth k r p y f c s with
    | Ok df s1 =>
      let s2 := record (Sleep 1500) s1 in
      if near_limit (call_counter s2) then Ok (appended all df) s2
      else File04.download_dataset_loop http depth k r p years f c (appended all df) s2
    | Raised e s1 => Raised e s1
    end.
Proof.
  cbn [File04.download_dataset_loop]. unfold bind at 1.
  destruct (File04.download_year http depth k r p y f c s) as [df s1|e s1];
    [|reflexivity].
  destruct df; cbv beta iota zeta delta [bind time_sleep emit read_call_counter appended ret];
    destruct (near_limit _); reflexivity.
Qed.

Lemma download_dataset_unfold depth k r p lo hi f c s :
  File04.download_dataset http depth k r p lo hi f c s =
    match File04.download_dataset_loop http depth k r p (range lo (hi + 1)) f c [] s with
    | Ok all s1 => Ok (gathered all) s1
    | Raised e s1 => Raised e s1
    end.
Proof.
  unfold File04.download_dataset, bind.
  destruct (File04.download_dataset_loop _ _ _ _ _ _ _ _ _ _) as [all s1|e s1];
    [|reflexivity].
  destruct all; reflexivity.
Qed.

(** What the loop of [download_dataset] adds to the world. *)
Lemma download_dataset_loop_spec depth k r p years f c all s :
  let res := File04.download_dataset_loop http depth k r p years f c all s in
  exists new,
    trace (final res) = trace s ++ new
    /\ call_counter (final res) = call_counter s + responses new
    /\ Forall (dataset_event k r p f c years) new
    /\ (StronglySorted Z.le years -> StronglySorted Z.le (periods new))
    /\ (forall y years', years = y :: years' ->
          exists a rest, new = Get (year_request k r p y f c) a :: rest)
    /\ match res with
       | Ok all' _ =>
         concat all' = concat all ++ success_rows new
         /\ (no_empty_frame all -> no_empty_frame all')
       | Raised _ _ => False
       end.
Proof.
  cbn zeta. revert all s. induction years as [|y years IH]; intros all s.
  { exists []. cbn. rewrite !app_nil_r.
    split; [done|]. split; [change (responses []) with 0; lia|].
    split; [constructor|]. split; [constructor|]. by split. }
  rewrite download_dataset_loop_step.
  destruct (download_year_spec depth k r p y f c s)
    as (new1 & Ht1 & Hc1 & Hev1 & Hhd1 & Hres1).
  assert (Hev1' : Forall (dataset_event k r p f c (y :: years)) new1).
  { eapply year_events_dataset; [|exact Hev1]. apply elem_of_cons. by left. }
  assert (Hp1 : Forall (fun z => z = y) (periods new1)).
  { exact (periods_year_events _ _ Hev1). }
  destruct (File04.download_year http depth k r p y f c s) as [df s1|e s1];
    [|done].
  cbn [final] in Ht1, Hc1. destruct Hres1 as [Hrows1 Hne1]. cbn zeta.
  destruct (near_limit (call_counter (record (Sleep 1500) s1))).
  - exists (new1 ++ [Sleep 1500]). cbn [final record trace call_counter].
    split; [by rewrite Ht1, app_assoc|].
    split; [rewrite Hc1, responses_app; change (responses [Sleep 1500]) with 0; lia|].
    split; [apply Forall_app; split; [done|by repeat constructor]|].
    split.
    { intros _. rewrite periods_app. change (periods [Sleep 1500]) with (@nil Z).
      rewrite app_nil_r. by eapply sorted_constant. }
    split.
    { intros y' years' [= <- <-]. destruct Hhd1 as (a & rest & Hnew1).
      exists a, (rest ++ [Sleep 1500]). by rewrite Hnew1. }
    split.
    + rewrite concat_appended, Hrows1, success_rows_app.
      change (success_rows [Sleep 1500]) with (@nil row). by rewrite app_nil_r.
    + by apply no_empty_frame_appended.
  - destruct (IH (appended all df) (record (Sleep 1500) s1))
      as (new2 & Ht2 & Hc2 & Hev2 & Hsort2 & _ & Hres2).
    exists (new1 ++ Sleep 1500 :: new2).
    split; [rewrite Ht2; cbn [record trace]; by rewrite Ht1, <- !app_assoc|].
    split.
    { rewrite Hc2. cbn [record call_counter]. rewrite Hc1.
      change (Sleep 1500 :: new2) with ([Sleep 1500] ++ new2).
      rewrite !responses_app. change (responses [Sleep 1500]) with 0. lia. }
    split.
    { apply Forall_app. split; [done|]. constructor; [done|].
      eapply dataset_events_mono; [|exact Hev2].
      intros z Hz. apply elem_of_cons. by right. }
    split.
    { intros Hs. apply StronglySorted_cons in Hs as [Hle Hs].
      change (Sleep 1500 :: new2) with ([Sleep 1500] ++ new2).
      rewrite !periods_app. change (periods [Sleep 1500]) with (@nil Z). cbn [app].
      apply StronglySorted_app_2; [|by eapply sorted_constant|by apply Hsort2].
      intros x1 x2 Hx1 Hx2.
      rewrite Forall_forall in Hp1. rewrite (Hp1 _ Hx1).
      pose proof (periods_dataset_events _ _ _ _ _ _ _ Hev2) as Hin.
      rewrite Forall_forall in Hin, Hle. auto. }
    split.
    { intros y' years' [= <- <-]. destruct Hhd1 as (a & rest & Hnew1).
      exists a, (rest ++ Sleep 1500 :: new2). by rewrite Hnew1. }
    destruct (File04.download_dataset_loop http depth k r p years f c _ _)
      as [all' s'|e s']; [|done].
    destruct Hres2 as [Hrows2 Hne2]. split.
    + rewrite Hrows2, concat_appended, Hrows1.
      change (Sleep 1500 :: new2) with ([Sleep 1500] ++ new2).
      rewrite !success_rows_app. change (success_rows [Sleep 1500]) with (@nil row).
      by rewrite <- app_assoc.
    + intros Hall. by apply Hne2, no_empty_frame_appended.
Qed.

(** What a call of [download_dataset] adds to the world. *)
Lemma download_dataset_spec depth k r p lo hi f c s :
  let res := File04.download_dataset http depth k r p lo hi f c s in
  exists new,
    trace (final res) = trace s ++ new
    /\ call_counter (final res) = call_counter s + responses new
    /\ Forall (dataset_event k r p f c (range lo (hi + 1))) new
    /\ StronglySorted Z.le (periods new)
    /\ (lo <= hi ->
          exists a rest, new = Get (year_request k r p lo f c) a :: rest)
    /\ match res with
       | Ok df _ => rows_of df = success_rows new /\ df <> Some []
       | Raised _ _ => False
       end.
Proof.
  cbn zeta. rewrite download_dataset_unfold.
  destruct (download_dataset_loop_spec depth k r p (range lo (hi + 1)) f c [] s)
    as (new & Ht & Hc & Hev & Hsort & Hhd & Hres).
  exists new.
  assert (Hhd' : lo <= hi ->
    exists a rest, new = Get (year_request k r p lo f c) a :: rest).
  { intros Hle. eapply Hhd. apply range_cons. lia. }
  specialize (Hsort (range_sorted _ _)).
  destruct (File04.download_dataset_loop http depth k r p _ f c [] s)
    as [all s'|e s']; [|done].
  cbn [final] in *. destruct Hres as [Hrows Hne]. cbn [concat app] in Hrows.
  do 5 (split; [done|]).
  destruct all as [|d all]; [by cbn in *|].
  cbn [gathered rows_of default]. split; [done|].
  unfold pd_concat. intros [= Hnil].
  apply (no_empty_frame_concat (d :: all)) in Hnil; [done|]. apply Hne. constructor.
Qed.

(** *** Every call returns *)

Lemma download_year_returns depth k r p y f c s :
  exists df s', File04.download_year http depth k r p y f c s = Ok df s'.
Proof.
  destruct (download_year_spec depth k r p y f c s) as (new & _ & _ & _ & _ & Hres).
  destruct (File04.download_year http depth k r p y f c s) as [df s'|e s']; [eauto|done].
Qed.

Lemma download_dataset_returns depth k r p lo hi f c s :
  exists df s', File04.download_dataset http depth k r p lo hi f c s = Ok df s'.
Proof.
  destruct (download_dataset_spec depth k r p lo hi f c s) as (new & _ & _ & _ & _ & _ & Hres).
  destruct (File04.download_dataset http depth k r p lo hi f c s) as [df s'|e s'];
    [eauto|done].
Qed.

(** *** The years visited *)

Lemma download_year_periods depth k r p y f c s :
  exists df s1 new,
    File04.download_year http depth k r p y f c s = Ok df s1
    /\ trace s1 = trace s ++ new
    /\ forall z, z ∈ periods new <-> z = y.
Proof.
  destruct (download_year_spec depth k r p y f c s) as (new & Ht & _ & Hev & Hhd & Hres).
  destruct (File04.download_year http depth k r p y f c s) as [df s1|e s1]; [|done].
  exists df, s1, new. split; [done|]. split; [exact Ht|].
  apply periods_year_events in Hev. destruct Hhd as (a & rest & Hnew).
  rewrite Hnew in Hev |- *. intros z. split.
  - intros Hz. rewrite Forall_forall in Hev. exact (Hev z Hz).
  - intros ->. apply elem_of_cons. by left.
Qed.

Lemma download_dataset_loop_visits depth k r p years f c all s :
  exists all' s' new n,
    File04.download_dataset_loop http depth k r p years f c all s = Ok all' s'
    /\ trace s' = trace s ++ new
    /\ (forall z, z ∈ periods new <-> z ∈ take n years)
    /\ (n = length years \/ near_limit (call_counter s') = true)
    /\ (years <> [] -> (1 <= n)%nat).
Proof.
  revert all s. induction years as [|y years IH]; intros all s.
  { exists all, s, [], O. rewrite app_nil_r.
    split; [done|]. split; [done|]. split; [done|]. split; [by left|done]. }
  rewrite download_dataset_loop_step.
  destruct (download_year_periods depth k r p y f c s) as (df & s1 & new1 & -> & Ht1 & Hp1).
  cbn zeta. destruct (near_limit (call_counter (record (Sleep 1500) s1))) eqn:Hnear.
  - exists (appended all df), (record (Sleep 1500) s1), (new1 ++ [Sleep 1500]), 1%nat.
    split; [done|]. split; [cbn [record trace]; by rewrite Ht1, app_assoc|].
    split.
    { intros z. rewrite periods_app. change (periods [Sleep 1500]) with (@nil Z).
      rewrite app_nil_r, Hp1. cbn. rewrite take_0, elem_of_cons, elem_of_nil. tauto. }
    split; [by right|]. intros _. lia.
  - destruct (IH (appended all df) (record (Sleep 1500) s1))
      as (all' & s' & new2 & n & -> & Ht2 & Hp2 & Hn & _).
    exists all', s', (new1 ++ Sleep 1500 :: new2), (S n).
    split; [done|]. split; [rewrite Ht2; cbn [record trace]; by rewrite Ht1, <- !app_assoc|].
    split.
    { intros z. change (Sleep 1500 :: new2) with ([Sleep 1500] ++ new2).
      rewrite !periods_app. change (periods [Sleep 1500]) with (@nil Z). cbn.
      rewrite elem_of_app, elem_of_cons, Hp1, Hp2. done. }
    split; [|intros _; lia].
    destruct Hn as [->|Hn]; [by left|by right].
Qed.

(** *** Throttled attempts *)

Lemma throttled_inv (a : reply) :
  throttled a = true -> exists body, a = Response 429 body.
Proof.
  destruct a as [|code body]; [done|]. cbn. intros H%Z.eqb_eq. subst. eauto.
Qed.

Lemma download_year_retry n depth k r p y f c s :
  let req := year_request k r p y f c in
  (forall i, (i < n)%nat ->
     throttled (http (requests_of (trace s) ++ replicate i req) req) = true) ->
  File04.download_year http (n + depth) k r p y f c s =
    File04.download_year http depth k r p y f c (retried http req n s).
Proof.
  cbn zeta. revert s. induction n as [|n IH]; intros s Hthr.
  { cbn [Nat.add]. f_equal. unfold retried. destruct s as [cnt t]. cbn.
    f_equal; [lia|by rewrite app_nil_r]. }
  cbn [Nat.add]. rewrite download_year_step; cbn zeta.
  set (req := year_request k r p y f c) in *.
  pose proof (Hthr O ltac:(lia)) as H0. cbn [replicate] in H0. rewrite app_nil_r in H0.
  destruct (throttled_inv _ H0) as [body Ha]. rewrite Ha.
  change (429 =? 200) with false. change (429 =? 429) with true. cbn iota.
  rewrite IH.
  - f_equal. unfold retried. cbn [record bump trace call_counter retry_trace].
    rewrite !requests_of_app. cbn [requests_of omap request_of]. rewrite app_nil_r.
    rewrite Ha. f_equal; [lia|]. by rewrite <- !app_assoc.
  - intros i Hi. cbn [record bump trace].
    rewrite !requests_of_app. cbn [requests_of omap request_of].
    rewrite app_nil_r, <- app_assoc. apply (Hthr (S i)). lia.
Qed.

(** When every attempt that the recursion limit leaves room for is
    throttled, the call after them fails on the limit and [None] comes
    back. *)
Lemma download_year_gives_up n k r p y f c s :
  let req := year_request k r p y f c in
  (forall i, (i < n)%nat ->
     throttled (http (requests_of (trace s) ++ replicate i req) req) = true) ->
  File04.download_year http n k r p y f c s =
    Ok None (record (Get req NoResponse) (retried http req n s)).
Proof.
  cbn zeta. intros Hthr.
  rewrite <- (Nat.add_0_r n) at 1.
  rewrite download_year_retry by exact Hthr.
  apply download_year_at_limit.
Qed.

End Year.

(** ** Dataset runs cut short by the quota *)

Lemma range_single (y : Z) : range y (y + 1) = [y].
Proof. rewrite range_cons by lia. unfold range. by rewrite seqZ_nil by lia. Qed.

Lemma download_dataset_loop_app http depth k r p pre post f c all s all1 s1 :
  File04.download_dataset_loop http depth k r p pre f c all s = Ok all1 s1 ->
  pre = [] \/ near_limit (call_counter s1) = false ->
  File04.download_dataset_loop http depth k r p (pre ++ post) f c all s =
  File04.download_dataset_loop http depth k r p post f c all1 s1.
Proof.
  revert all s. induction pre as [|y pre IH]; intros all s Hrun Hgo.
  { cbn in Hrun. by injection Hrun as -> ->. }
  destruct Hgo as [|Hgo]; [done|].
  cbn [app]. rewrite download_dataset_loop_step in Hrun |- *.
  destruct (File04.download_year http depth k r p y f c s) as [df sa|e sa]; [|done].
  cbn zeta in *.
  destruct (near_limit (call_counter (record (Sleep 1500) sa))) eqn:Hnear.
  - injection Hrun as <- <-. congruence.
  - apply IH; [done|]. by right.
Qed.

Lemma requests_of_retry_trace http past req n :
  requests_of (retry_trace http past req n) = replicate n req.
Proof.
  revert past. induction n as [|n IH]; intros past; [done|].
  cbn [retry_trace replicate]. change (requests_of (?a :: ?b :: ?t)) with (req :: requests_of t).
  by rewrite IH.
Qed.

(** ** The two scripts define the same functions *)

Lemma download_year_same http depth k r p y f c s :
  File05.download_year http depth k r p y f c s = File04.download_year http depth k r p y f c s.
Proof. reflexivity. Qed.

Lemma download_dataset_same http depth k r p lo hi f c s :
  File05.download_dataset http depth k r p lo hi f c s =
  File04.download_dataset http depth k r p lo hi f c s.
Proof. reflexivity. Qed.

Lemma download_dataset_eq : File05.download_dataset = File04.download_dataset.
Proof. reflexivity. Qed.

Lemma download_year_eq : File05.download_year = File04.download_year.
Proof. reflexivity. Qed.

Lemma download_dataset_loop_eq :
  File05.download_dataset_loop = File04.download_dataset_loop.
Proof. reflexivity. Qed.

(** ** The quota test *)

(** C5: the near-limit test is true exactly when the counter is at least
    [max_calls - 50]; with the budget of 500 it is false at 449 calls and
    true at 450. *)
Theorem near_limit_threshold :
  (forall calls, near_limit calls = true <-> calls >= max_calls - 50)
  /\ max_calls = 500
  /\ near_limit 449 = false
  /\ near_limit 450 = true.
Proof.
  split; [|by repeat split].
  intros calls. unfold near_limit. rewrite Z.geb_le. lia.
Qed.

(** ** Claims on [download_year] and [download_dataset] *)

(** C3, as the code has it: a request answered with HTTP 429 is attempted
    again, the same request, after sixty seconds, in a nested call.  While the
    interpreter's recursion limit leaves room for the nested calls the retry
    is transparent: when the attempt after [n] throttled ones brings rows,
    [download_year] returns these rows, the counter has grown by [n + 1], and
    a [download_dataset] over that one year returns the rows.  The script sets
    no bound of its own on the retries, but they are bounded all the same:
    when the [n] attempts that the limit leaves room for are all throttled,
    the next call fails on the limit, the error is swallowed, and
    [download_year] returns [None] with [n] calls counted. *)
Theorem throttled_request_retried http n depth k r p y f c s rows :
  let req := year_request k r p y f c in
  let good := Response 200 (JsonObject (Some rows)) in
  (forall i, (i < n)%nat ->
     throttled (http (requests_of (trace s) ++ replicate i req) req) = true) ->
  (http (requests_of (trace s) ++ replicate n req) req = good ->
   rows <> [] ->
   exists s',
     File04.download_year http (n + S depth) k r p y f c s = Ok (Some rows) s'
     /\ call_counter s' = call_counter s + Z.of_nat n + 1
     /\ trace s' = trace s ++ retry_trace http (requests_of (trace s)) req n ++ [Get req good]
     /\ File04.download_dataset http (n + S depth) k r p y y f c s
        = Ok (Some rows) (record (Sleep 1500) s'))
  /\ (exists s',
        File04.download_year http n k r p y f c s = Ok None s'
        /\ call_counter s' = call_counter s + Z.of_nat n
        /\ trace s'
           = trace s ++ retry_trace http (requests_of (trace s)) req n ++ [Get req NoResponse]
        /\ File04.download_dataset http n k r p y y f c s = Ok None (record (Sleep 1500) s')).
Proof.
  cbn zeta. intros Hthr.
  set (req := year_request k r p y f c) in *. split.
  - intros Hgood Hrows.
    set (good := Response 200 (JsonObject (Some rows))) in *.
    assert (Hyear : File04.download_year http (n + S depth) k r p y f c s
                    = Ok (Some rows) (bump (record (Get req good) (retried http req n s)))).
    { assert (Hgood' : http (requests_of (trace (retried http req n s))) req = good).
      { unfold retried. cbn [trace]. by rewrite requests_of_app, requests_of_retry_trace. }
      rewrite download_year_retry by exact Hthr. rewrite download_year_step. cbn zeta.
      fold req. rewrite !Hgood'.
      unfold good. change (200 =? 200) with true. cbn iota.
      destruct rows; [done|reflexivity]. }
    eexists. split; [exact Hyear|]. split; [cbn; lia|]. split.
    { cbn [bump record retried trace]. by rewrite <- app_assoc. }
    rewrite download_dataset_unfold, range_single, download_dataset_loop_step, Hyear.
    cbn zeta. cbn [appended app File04.download_dataset_loop].
    destruct (near_limit _); cbn [ret gathered pd_concat concat]; by rewrite app_nil_r.
  - pose proof (download_year_gives_up http n k r p y f c s Hthr) as Hyear.
    cbn zeta in Hyear. fold req in Hyear.
    eexists. split; [exact Hyear|]. split; [reflexivity|]. split.
    { cbn [record retried trace]. by rewrite <- app_assoc. }
    rewrite download_dataset_unfold, range_single, download_dataset_loop_step, Hyear.
    cbn zeta. cbn [appended File04.download_dataset_loop].
    destruct (near_limit _); reflexivity.
Qed.

Lemma throttled_request_retried_once :
  (exists s',
     File04.download_year (throttled_first 1) 2 API_KEY "170" "156" 1992 "M" "AG6" initial_state
       = Ok (Some [one_row 1992]) s'
     /\ call_counter s' = 2
     /\ attempts (trace s') = 2
     /\ File04.download_dataset (throttled_first 1) 2 API_KEY "170" "156" 1992 1992 "M" "AG6"
          initial_state
        = Ok (Some [one_row 1992]) (record (Sleep 1500) s'))
  /\ (exists s',
        File04.download_year (throttled_first 1) 1 API_KEY "170" "156" 1992 "M" "AG6"
          initial_state
        = Ok None s'
        /\ call_counter s' = 1
        /\ attempts (trace s') = 2).
Proof.
  destruct (throttled_request_retried (throttled_first 1) 1 0 API_KEY "170" "156" 1992
              "M" "AG6" initial_state [one_row 1992]) as [Hgood Hlimit].
  { intros i Hi. assert (i = O) as -> by lia. reflexivity. }
  split.
  - destruct Hgood as (s' & Hy & Hc & Ht & Hd); [reflexivity|discriminate|].
    exists s'. split; [exact Hy|]. split; [exact Hc|]. split; [|exact Hd].
    rewrite Ht. reflexivity.
  - destruct Hlimit as (s' & Hy & Hc & Ht & _).
    exists s'. split; [exact Hy|]. split; [exact Hc|]. rewrite Ht. reflexivity.
Defined.

(** The service throttles the first 988 attempts of a request and has rows
    for the next one; with room for 988 nested calls [download_year] gives up
    and returns [None]. *)
Lemma retries_end_at_recursion_limit :
  let http := throttled_first 988 in
  let req := year_request API_KEY "170" "156" 1992 "M" "AG6" in
  let run := File04.download_year http 988 API_KEY "170" "156" 1992 "M" "AG6" initial_state in
  http (replicate 988 req) req = Response 200 (JsonObject (Some [one_row 1992]))
  /\ run = Ok None (final run)
  /\ call_counter (final run) = 988
  /\ responses (trace (final run)) = 988.
Proof. cbn zeta. split; [|split; [|split]]; vm_compute; reflexivity. Qed.

(** C4: when the near-limit test is true after the attempt of a year and its
    pacing wait, [download_dataset] stops there: it returns what it had
    gathered, and what it did is what it does on the range cut at that year;
    no later year is asked for. *)
Theorem quota_stops_aggregation http depth k r p lo y hi f c s all1 s1 df s2 :
  lo <= y <= hi ->
  File04.download_dataset_loop http depth k r p (range lo y) f c [] s = Ok all1 s1 ->
  lo = y \/ near_limit (call_counter s1) = false ->
  File04.download_year http depth k r p y f c s1 = Ok df s2 ->
  near_limit (call_counter s2) = true ->
  File04.download_dataset http depth k r p lo hi f c s
    = Ok (gathered (appended all1 df)) (record (Sleep 1500) s2)
  /\ File04.download_dataset http depth k r p lo hi f c s
     = File04.download_dataset http depth k r p lo y f c s
  /\ exists new,
       trace (record (Sleep 1500) s2) = trace s ++ new
       /\ Forall (fun z => lo <= z <= y) (periods new).
Proof.
  intros Hy Hpre Hgo Hyear Hnear.
  assert (Hpre' : range lo y = [] \/ near_limit (call_counter s1) = false).
  { destruct Hgo as [->|Hgo]; [left|by right]. unfold range. by rewrite seqZ_nil by lia. }
  assert (Hcut : forall hi', y <= hi' ->
    File04.download_dataset http depth k r p lo hi' f c s
      = Ok (gathered (appended all1 df)) (record (Sleep 1500) s2)).
  { intros hi' Hhi'. rewrite download_dataset_unfold.
    rewrite (range_split lo y (hi' + 1)) by lia.
    rewrite (download_dataset_loop_app _ _ _ _ _ _ _ _ _ _ _ _ _ Hpre Hpre').
    rewrite download_dataset_loop_step, Hyear. cbn zeta.
    change (call_counter (record (Sleep 1500) s2)) with (call_counter s2).
    by rewrite Hnear. }
  split; [apply Hcut; lia|]. split; [by rewrite !Hcut by lia|].
  destruct (download_dataset_spec http depth k r p lo y f c s)
    as (new & Ht & _ & Hev & _).
  rewrite Hcut in Ht by lia. exists new. split; [exact Ht|].
  apply periods_dataset_events in Hev.
  eapply Forall_impl; [exact Hev|]. intros z Hz%elem_of_range. lia.
Qed.

Lemma quota_stops_aggregation_after_1993 :
  exists s',
    File04.download_dataset always_one_row 1 API_KEY "170" "156" 1992 1996 "M" "AG6"
      (after_calls 448)
    = Ok (Some [one_row 1992; one_row 1993]) s'
    /\ call_counter s' = 450
    /\ periods (trace s') = [1992; 1993].
Proof.
  set (pre := File04.download_dataset_loop always_one_row 1 API_KEY "170" "156"
                (range 1992 1993) "M" "AG6" [] (after_calls 448)).
  set (year := File04.download_year always_one_row 1 API_KEY "170" "156" 1993 "M" "AG6"
                 (final pre)).
  assert (Hpre : pre = Ok [[one_row 1992]] (final pre)) by (vm_compute; reflexivity).
  assert (Hgo : near_limit (call_counter (final pre)) = false) by (vm_compute; reflexivity).
  assert (Hyear : year = Ok (Some [one_row 1993]) (final year)) by (vm_compute; reflexivity).
  assert (Hnear : near_limit (call_counter (final year)) = true) by (vm_compute; reflexivity).
  destruct (quota_stops_aggregation always_one_row 1 API_KEY "170" "156"
              1992 1993 1996 "M" "AG6" (after_calls 448) _ _ _ _
              ltac:(lia) Hpre (or_intror Hgo) Hyear Hnear)
    as (Hrun & _).
  eexists. split; [exact Hrun|].
  split; vm_compute; reflexivity.
Defined.

(** C6: [download_dataset] goes through the years of its range in ascending
    order, every one of them unless the quota test stops it (and then the
    years it got to are the first ones of the range), and returns the rows
    delivered by the attempts, in the order of the attempts; an attempt that
    delivers no rows (no [data], an empty [data], a failure) adds nothing. *)
Theorem aggregation_in_year_order http depth k r p lo hi f c s :
  exists df s' new n,
    File04.download_dataset http depth k r p lo hi f c s = Ok df s'
    /\ trace s' = trace s ++ new
    /\ rows_of df = success_rows new
    /\ StronglySorted Z.le (periods new)
    /\ (forall y, y ∈ periods new <-> y ∈ take n (range lo (hi + 1)))
    /\ (n = length (range lo (hi + 1)) \/ near_limit (call_counter s') = true)
    /\ (lo <= hi -> (1 <= n)%nat)
    /\ (near_limit (call_counter s') = false ->
        forall y, lo <= y <= hi -> y ∈ periods new).
Proof.
  destruct (download_dataset_spec http depth k r p lo hi f c s)
    as (new & Ht & _ & _ & Hsort & _ & Hres).
  destruct (download_dataset_loop_visits http depth k r p (range lo (hi + 1)) f c [] s)
    as (all & s' & new' & n & Hloop & Ht' & Hvis & Hn & Hfirst).
  rewrite download_dataset_unfold, Hloop in Ht, Hres |- *. cbn [final] in Ht.
  assert (new' = new) as -> by (apply (app_inv_head (trace s)); congruence).
  destruct Hres as [Hrows _].
  exists (gathered all), s', new, n. do 6 (split; [done|]). split.
  - intros Hle. apply Hfirst. rewrite range_cons by lia. done.
  - intros Hgo y Hy. destruct Hn as [->|Hn]; [|congruence].
    apply Hvis. rewrite firstn_all. apply elem_of_range. lia.
Qed.

Lemma aggregation_skips_1993 :
  exists s',
    File04.download_dataset gap_in_1993 1 API_KEY "170" "156" 1992 1994 "M" "AG6" initial_state
    = Ok (Some [one_row 1992; one_row 1992; one_row 1994; one_row 1994]) s'
    /\ StronglySorted Z.le (periods (trace s'))
    /\ periods (trace s') = [1992; 1993; 1994]
    /\ forall y, 1992 <= y <= 1994 -> y ∈ periods (trace s').
Proof.
  set (run := File04.download_dataset gap_in_1993 1 API_KEY "170" "156" 1992 1994 "M" "AG6"
                initial_state).
  destruct (aggregation_in_year_order gap_in_1993 1 API_KEY "170" "156" 1992 1994 "M" "AG6"
              initial_state) as (df & s' & new & n & Hrun' & Ht & _ & Hsort & _ & _ & _ & Hall).
  fold run in Hrun'.
  assert (Hrun : run = Ok (Some [one_row 1992; one_row 1992; one_row 1994; one_row 1994])
                         (final run))
    by (vm_compute; reflexivity).
  assert (Hs' : s' = final run) by (rewrite Hrun'; reflexivity). subst s'.
  assert (Hgo : near_limit (call_counter (final run)) = false) by (vm_compute; reflexivity).
  exists (final run). split; [exact Hrun|].
  split; [rewrite Ht; exact Hsort|]. split; [vm_compute; reflexivity|].
  rewrite Ht. exact (Hall Hgo).
Defined.

(** C10: over a range that is not empty, [download_dataset] attempts the first
    year before it looks at the counter, whatever the counter is on entry. *)
Theorem first_year_fetched_before_quota_test http depth k r p lo hi f c s :
  lo <= hi ->
  (exists a rest,
     trace (final (File04.download_dataset http (S depth) k r p lo hi f c s))
     = trace s ++ Get (year_request k r p lo f c) a :: rest)
  /\ (exists a rest,
       trace (final (File05.download_dataset http (S depth) k r p lo hi f c s))
       = trace s ++ Get (year_request k r p lo f c) a :: rest).
Proof.
  intros Hle.
  assert (H04 : exists a rest,
     trace (final (File04.download_dataset http (S depth) k r p lo hi f c s))
     = trace s ++ Get (year_request k r p lo f c) a :: rest).
  { destruct (download_dataset_spec http (S depth) k r p lo hi f c s)
      as (new & Ht & _ & _ & _ & Hhd & _).
    destruct (Hhd Hle) as (a & rest & ->). eauto. }
  split; [exact H04|]. rewrite download_dataset_same. exact H04.
Qed.

Lemma first_year_fetched_when_exhausted :
  let http := throttled_first 460 in
  let s := final (File04.download_year http 461 API_KEY "170" "156" 1992 "M" "AG6"
                    initial_state) in
  near_limit (call_counter s) = true
  /\ exists a rest,
       trace (final (File05.download_dataset http 1 API_KEY "170" "0" 1992 2023 "M" "AG6" s))
       = trace s ++ Get (year_request API_KEY "170" "0" 1992 "M" "AG6") a :: rest.
Proof.
  cbn zeta. split; [vm_compute; reflexivity|].
  apply (first_year_fetched_before_quota_test (throttled_first 460) 0 API_KEY "170" "0"
           1992 2023 "M" "AG6"). lia.
Defined.

(** ** Programs that work on downloads in order *)

Lemma phases_app (t1 t2 : list event) : phases (t1 ++ t2) = phases t1 ++ phases t2.
Proof. apply omap_app. Qed.

Lemma steps_ret {A} lo hi (a : A) (V : A -> Prop) : V a -> steps lo hi (ret a) V.
Proof.
  intros Ha s. exists []. cbn. rewrite app_nil_r.
  split; [done|]. split; [change (responses []) with 0; lia|].
  split; [constructor|]. split; [constructor|]. split; [constructor|].
  by intros a' s' [= <- _].
Qed.

Lemma steps_raise {A} lo hi (e : exn) (V : A -> Prop) : steps lo hi (raise e) V.
Proof.
  intros s. exists []. cbn. rewrite app_nil_r.
  split; [done|]. split; [change (responses []) with 0; lia|].
  split; [constructor|]. split; [constructor|]. split; [constructor|]. done.
Qed.

Lemma steps_weaken {A} lo hi lo' hi' (m : M A) (V V' : A -> Prop) :
  steps lo hi m V -> (lo' <= lo)%nat -> (hi <= hi')%nat -> (forall a, V a -> V' a) ->
  steps lo' hi' m V'.
Proof.
  intros Hm Hlo Hhi HV s. destruct (Hm s) as (new & Ht & Hc & Hs & Hb & Ho & Hv).
  exists new. do 3 (split; [done|]). split; [|split; [done|]].
  - eapply Forall_impl; [exact Hb|]. intros n Hn. cbn in Hn. lia.
  - intros a s' Hrun. eauto.
Qed.

Lemma steps_bind {A B} lo mid hi (m : M A) (k : A -> M B) (V1 : A -> Prop) (V : B -> Prop) :
  steps lo mid m V1 ->
  (forall a, V1 a -> steps mid hi (k a) V) ->
  (lo <= mid <= hi)%nat ->
  steps lo hi (bind m k) V.
Proof.
  intros Hm Hk Hord s. unfold bind.
  destruct (Hm s) as (new1 & Ht1 & Hc1 & Hs1 & Hb1 & Ho1 & Hv1).
  assert (Hb1' : Forall (fun n => (lo <= n <= hi)%nat) (phases new1)).
  { eapply Forall_impl; [exact Hb1|]. intros n Hn. cbn in Hn. lia. }
  destruct (m s) as [a s1|e s1]; cbn [final] in *.
  2: exists new1; by do 5 (split; [done|]).
  destruct (Hk a (Hv1 a s1 eq_refl) s1) as (new2 & Ht2 & Hc2 & Hs2 & Hb2 & Ho2 & Hv2).
  exists (new1 ++ new2).
  split; [by rewrite Ht2, Ht1, app_assoc|].
  split; [rewrite Hc2, Hc1, responses_app; lia|].
  split; [by apply Forall_app|].
  rewrite phases_app. split; [|split; [|done]].
  - apply Forall_app. split; [done|].
    eapply Forall_impl; [exact Hb2|]. intros n Hn. cbn in Hn. lia.
  - apply StronglySorted_app_2; [|done|done].
    intros x1 x2 Hx1 Hx2. rewrite Forall_forall in Hb1, Hb2.
    specialize (Hb1 _ Hx1). specialize (Hb2 _ Hx2). cbn in *. lia.
Qed.

Lemma steps_emit lo hi (e : event) :
  phase_of e = None -> steps lo hi (emit e) (fun _ => True).
Proof.
  intros He s. exists [e]. cbn [emit final record trace call_counter].
  split; [done|]. split.
  { assert (responses [e] = 0) as ->; [|lia]. by destruct e. }
  split; [constructor; [by destruct e|constructor]|].
  unfold phases. cbn [omap list_omap]. rewrite He.
  split; [constructor|]. split; [constructor|]. done.
Qed.

Lemma steps_to_csv disk n (name : string) (df : DataFrame) :
  df <> [] -> csv_no name = n -> steps n n (to_csv disk OUTPUT_DIR name df) (fun _ => True).
Proof.
  intros Hdf Hn s. unfold to_csv.
  destruct (disk (csv_written (trace s)) name df).
  - exists [ToCsv OUTPUT_DIR name df].
    cbn [final record trace call_counter].
    split; [done|]. split; [change (responses _) with 0; lia|].
    split; [by repeat constructor|].
    change (phases _) with [csv_no name]. rewrite Hn.
    split; [repeat constructor; lia|]. split; [repeat constructor|]. done.
  - exists []. cbn [final]. rewrite app_nil_r.
    split; [done|]. split; [change (responses []) with 0; lia|].
    split; [constructor|]. split; [constructor|]. split; [constructor|]. done.
Qed.

Lemma steps_read lo hi : steps lo hi read_call_counter (fun _ => True).
Proof.
  intros s. exists []. cbn. rewrite app_nil_r.
  split; [done|]. split; [change (responses []) with 0; lia|].
  split; [constructor|]. split; [constructor|]. split; [constructor|]. done.
Qed.

Lemma steps_subscript lo hi (d : gmap string string) (key : string) :
  steps lo hi (subscript d key) (fun v => d !! key = Some v).
Proof.
  unfold subscript. destruct (d !! key) as [v|].
  - by apply steps_ret.
  - apply steps_raise.
Qed.

Lemma phases_dataset_events k r p f c years (t : list event) :
  Forall (dataset_event k r p f c years) t ->
  Forall (fun n => n = dataset_no (year_request k r p 0 f c)) (phases t).
Proof.
  induction 1 as [|e t He _ IH]; [constructor|].
  destruct e as [req a|ms|dir name df|line]; try done.
  destruct He as (y & _ & ->). constructor; [done|exact IH].
Qed.

Lemma sorted_constant_nat (n : nat) (l : list nat) :
  Forall (fun m => m = n) l -> StronglySorted le l.
Proof.
  induction 1 as [|m l -> Hl IH]; constructor; [done|].
  eapply Forall_impl; [exact Hl|]. intros m ->. lia.
Qed.

Lemma sound_dataset_events k r p f c years (t : list event) :
  Forall (dataset_event k r p f c years) t -> Forall sound_event t.
Proof.
  intros Ht. eapply Forall_impl; [exact Ht|].
  by intros [req a|ms|dir name df|line].
Qed.

Lemma steps_download_dataset http depth k r p lo hi f c n :
  dataset_no (year_request k r p 0 f c) = n ->
  steps n n (File04.download_dataset http depth k r p lo hi f c) (fun df => df <> Some []).
Proof.
  intros Hn s.
  destruct (download_dataset_spec http depth k r p lo hi f c s)
    as (new & Ht & Hc & Hev & _ & _ & Hres).
  exists new. split; [done|]. split; [done|].
  split; [by eapply sound_dataset_events|].
  pose proof (phases_dataset_events _ _ _ _ _ _ _ Hev) as Hph. rewrite Hn in Hph.
  split; [|split; [by eapply sorted_constant_nat|]].
  - eapply Forall_impl; [exact Hph|]. intros m ->. lia.
  - intros df s' Hrun. rewrite Hrun in Hres. by destruct Hres.
Qed.

Lemma steps_print lo hi (line : output) : steps lo hi (print line) (fun _ => True).
Proof. by apply steps_emit. Qed.

Lemma steps_sleep lo hi (ms : Z) : steps lo hi (time_sleep ms) (fun _ => True).
Proof. by apply steps_emit. Qed.

Lemma steps_exit {A} lo hi (code : Z) (V : A -> Prop) : steps lo hi (sys_exit code) V.
Proof. apply steps_raise. Qed.

(** One more statement of a program that stays within downloads up to [mid]
    before the rest goes on from [mid]. *)
Ltac step_with mid :=
  eapply (steps_bind _ mid _);
  [ first [ apply steps_print | apply steps_sleep | apply steps_read
          | apply steps_subscript
          | apply steps_download_dataset; reflexivity ]
  | cbv beta
  | lia ].

Tactic Notation "step" constr(mid) := step_with mid; [intros _ _].
Tactic Notation "step" constr(mid) "as" ident(v) ident(H) := step_with mid; [intros v H].
Tactic Notation "known" hyp(H) := vm_compute in H; injection H as <-.

Lemma no_empty_frame_labelled (lac_data : list DataFrame) (name : string)
    (df : option DataFrame) :
  df <> Some [] -> no_empty_frame lac_data ->
  no_empty_frame
    match df with
    | Some d => lac_data ++ [set_column "partner_country" (CStr name) d]
    | None => lac_data
    end.
Proof.
  intros Hdf Hall. destruct df as [d|]; [|done].
  apply Forall_app. split; [done|]. constructor; [|constructor].
  destruct d; [done|]. discriminate.
Qed.

Lemma concat_nonempty (frames : list DataFrame) (d : DataFrame) :
  no_empty_frame (d :: frames) -> pd_concat (d :: frames) <> [].
Proof.
  intros Hall Hnil. by apply (no_empty_frame_concat (d :: frames)) in Hnil.
Qed.

Section Campaign04.
Context (http : oracle) (disk : storage) (depth : nat).

Lemma steps_save_dataset n (name : string) (df : option DataFrame) :
  df <> Some [] -> csv_no name = n ->
  steps n n (File04.save_dataset disk name df) (fun _ => True).
Proof.
  intros Hdf Hn. destruct df as [d|]; [|by apply steps_ret].
  unfold File04.save_dataset.
  eapply (steps_bind _ n _); [apply steps_to_csv; [congruence|done]| |lia].
  intros _ _. step n as calls Hc. apply steps_print.
Qed.

Lemma steps_lac_loop names lac_data :
  no_empty_frame lac_data ->
  steps 4 4 (File04.lac_loop http depth names lac_data) no_empty_frame.
Proof.
  revert lac_data. induction names as [|name names IH]; intros lac_data Hall.
  { by apply steps_ret. }
  cbn [File04.lac_loop].
  step 4%nat as reporter Hr. known Hr. step 4%nat as partner Hp.
  step 4%nat as df Hdf. step 4%nat.
  apply IH. by apply no_empty_frame_labelled.
Qed.

Lemma steps_download_lac names :
  steps 4 4 (File04.download_lac http disk depth names) (fun _ => True).
Proof.
  unfold File04.download_lac. step 4%nat.
  eapply (steps_bind _ 4%nat _); [apply steps_lac_loop; constructor| |lia].
  intros [|d lac_data] Hall; [by apply steps_ret|].
  eapply (steps_bind _ 4%nat _);
    [apply steps_to_csv; [by apply concat_nonempty|reflexivity]| |lia].
  intros _ _. step 4%nat as calls Hc. apply steps_print.
Qed.

Lemma steps_main_imports : steps 1 2 (File04.main_imports http disk depth) (fun _ => True).
Proof.
  unfold File04.main_imports.
  step 1%nat. step 1%nat.
  step 1%nat as reporter Hr. known Hr. step 1%nat as partner Hp. known Hp.
  step 1%nat as df Hdf.
  eapply (steps_bind _ 1%nat _); [by apply steps_save_dataset| |lia].
  intros _ _. step 1%nat.
  step 1%nat as reporter Hr. known Hr. step 1%nat as partner Hp. known Hp.
  apply (steps_bind _ 2%nat _ _ _ (fun df => df <> Some []));
    [|intros df2 Hdf2; by apply steps_save_dataset|lia].
  eapply steps_weaken;
    [by apply (steps_download_dataset _ _ _ _ _ _ _ _ _ 2%nat)|lia|lia|done].
Qed.

Lemma steps_main_gate lo hi :
  (lo <= hi)%nat -> steps lo hi File04.main_gate (fun _ => True).
Proof.
  intros Hle. unfold File04.main_gate.
  eapply (steps_bind _ lo _); [apply steps_read| |lia..].
  intros calls _. destruct (near_limit calls); [|by apply steps_ret].
  eapply (steps_bind _ lo _); [apply steps_print| |lia..].
  intros _ _. apply steps_exit.
Qed.

Lemma steps_main_exports : steps 3 4 (File04.main_exports http disk depth) (fun _ => True).
Proof.
  unfold File04.main_exports.
  step 3%nat.
  step 3%nat as reporter Hr. known Hr. step 3%nat as partner Hp. known Hp.
  step 3%nat as df Hdf.
  eapply (steps_bind _ 3%nat _); [by apply steps_save_dataset| |lia].
  intros _ _.
  eapply (steps_bind _ 4%nat _);
    [eapply steps_weaken; [apply steps_download_lac|lia|lia|done]| |lia].
  intros _ _. step 4%nat. step 4%nat as calls Hc. step 4%nat. step 4%nat.
  apply steps_print.
Qed.

Lemma steps_main : steps 1 4 (File04.main http disk depth) (fun _ => True).
Proof.
  unfold File04.main.
  eapply (steps_bind _ 2%nat _); [apply steps_main_imports| |lia].
  intros _ _.
  eapply (steps_bind _ 3%nat _);
    [eapply steps_weaken; [apply (steps_main_gate 2 2); lia|lia|lia|done]| |lia].
  intros _ _. apply steps_main_exports.
Qed.

End Campaign04.

Section Campaign05.
Context (http : oracle) (disk : storage) (depth : nat).

Lemma steps_save_dataset_05 n (name : string) (df : option DataFrame) :
  df <> Some [] -> csv_no name = n ->
  steps n n (File05.save_dataset disk name df) (fun _ => True).
Proof.
  intros Hdf Hn. destruct df as [d|]; [|by apply steps_ret].
  apply steps_to_csv; [congruence|done].
Qed.

Lemma steps_lac_loop_05 names lac_data :
  no_empty_frame lac_data ->
  steps 4 4 (File05.lac_loop http depth names lac_data) no_empty_frame.
Proof.
  revert lac_data. induction names as [|name names IH]; intros lac_data Hall.
  { by apply steps_ret. }
  cbn [File05.lac_loop]. rewrite download_dataset_eq.
  step 4%nat as reporter Hr. known Hr. step 4%nat as partner Hp.
  step 4%nat as df Hdf. step 4%nat.
  apply IH. by apply no_empty_frame_labelled.
Qed.

Lemma steps_download_lac_05 names :
  steps 4 4 (File05.download_lac http disk depth names) (fun _ => True).
Proof.
  unfold File05.download_lac.
  eapply (steps_bind _ 4%nat _); [apply steps_lac_loop_05; constructor| |lia].
  intros [|d lac_data] Hall; [by apply steps_ret|].
  apply steps_to_csv; [by apply concat_nonempty|reflexivity].
Qed.

Lemma steps_main_imports_05 : steps 1 2 (File05.main_imports http disk depth) (fun _ => True).
Proof.
  unfold File05.main_imports. rewrite download_dataset_eq.
  step 1%nat as reporter Hr. known Hr. step 1%nat as partner Hp. known Hp.
  step 1%nat as df Hdf.
  eapply (steps_bind _ 1%nat _); [by apply steps_save_dataset_05| |lia].
  intros _ _.
  step 1%nat as reporter Hr. known Hr. step 1%nat as partner Hp. known Hp.
  apply (steps_bind _ 2%nat _ _ _ (fun df => df <> Some []));
    [|intros df2 Hdf2; by apply steps_save_dataset_05|lia].
  eapply steps_weaken;
    [by apply (steps_download_dataset _ _ _ _ _ _ _ _ _ 2%nat)|lia|lia|done].
Qed.

Lemma steps_main_gate_05 lo hi :
  (lo <= hi)%nat -> steps lo hi File05.main_gate (fun _ => True).
Proof.
  intros Hle. unfold File05.main_gate.
  eapply (steps_bind _ lo _); [apply steps_read| |lia..].
  intros calls _. destruct (near_limit calls); [|by apply steps_ret].
  apply steps_exit.
Qed.

Lemma steps_main_exports_05 : steps 3 4 (File05.main_exports http disk depth) (fun _ => True).
Proof.
  unfold File05.main_exports. rewrite download_dataset_eq.
  step 3%nat as reporter Hr. known Hr. step 3%nat as partner Hp. known Hp.
  step 3%nat as df Hdf.
  eapply (steps_bind _ 3%nat _); [by apply steps_save_dataset_05| |lia].
  intros _ _.
  eapply steps_weaken; [apply steps_download_lac_05|lia|lia|done].
Qed.

Lemma steps_main_05 : steps 1 4 (File05.main http disk depth) (fun _ => True).
Proof.
  unfold File05.main.
  eapply (steps_bind _ 2%nat _); [apply steps_main_imports_05| |lia].
  intros _ _.
  eapply (steps_bind _ 3%nat _);
    [eapply steps_weaken; [apply (steps_main_gate_05 2 2); lia|lia|lia|done]| |lia].
  intros _ _. apply steps_main_exports_05.
Qed.

End Campaign05.

(** ** Claims on the counter and on what is written *)

Lemma unanswered_attempt_not_counted :
  let s := final (File04.download_year unreachable 1 API_KEY "170" "156" 1992 "M" "AG6"
                    initial_state) in
  attempts (trace s) = 1 /\ call_counter s = 0.
Proof. split; reflexivity. Qed.

(** C1, as the code has it: [call_counter] grows by one for each round-trip on
    which [requests.get] returns a response, whatever the status and the body;
    an attempt on which [requests.get] raises is not counted.  So a call of
    [download_year] adds the number of its responses, and at the end of a run
    of either script the counter is the number of responses received. *)
Theorem call_counter_counts_responses :
  (forall http depth k r p y f c s,
     let s' := final (File04.download_year http depth k r p y f c s) in
     exists new,
       trace s' = trace s ++ new
       /\ call_counter s' = call_counter s + responses new
       /\ responses new = attempts new - unanswered new)
  /\ (forall http disk depth,
        let s' := final (File04.main http disk depth initial_state) in
        call_counter s' = responses (trace s'))
  /\ (forall http disk depth,
        let s' := final (File05.main http disk depth initial_state) in
        call_counter s' = responses (trace s')).
Proof.
  split; [|split].
  - intros http depth k r p y f c s. cbn zeta.
    destruct (download_year_spec http depth k r p y f c s) as (new & Ht & Hc & _).
    exists new. split; [done|]. split; [done|]. rewrite attempts_split. lia.
  - intros http disk depth. cbn zeta.
    destruct (steps_main http disk depth initial_state) as (new & Ht & Hc & _).
    rewrite Hc, Ht. reflexivity.
  - intros http disk depth. cbn zeta.
    destruct (steps_main_05 http disk depth initial_state) as (new & Ht & Hc & _).
    rewrite Hc, Ht. reflexivity.
Qed.

Lemma sound_csv_written (t : list event) :
  Forall sound_event t -> Forall (fun w : string * DataFrame => w.2 <> []) (csv_written t).
Proof.
  induction 1 as [|e t He _ IH]; [constructor|].
  destruct e as [req a|ms|dir name df|line]; try exact IH.
  constructor; [exact He|exact IH].
Qed.

(** C7: [download_dataset] returns, and it returns [None] exactly when no
    attempt delivered rows, and otherwise a frame that is not empty, made of
    the rows delivered; nothing is written for [None]; and no run of either
    script writes a file without rows. *)
Theorem absent_iff_no_rows :
  (forall http depth k r p lo hi f c s,
     exists df s' new,
       File04.download_dataset http depth k r p lo hi f c s = Ok df s'
       /\ trace s' = trace s ++ new
       /\ (df = None <-> forall e, e ∈ new -> rows_of_event e = [])
       /\ forall d, df = Some d -> d <> [] /\ d = success_rows new)
  /\ (forall disk name s,
        File04.save_dataset disk name None s = Ok tt s
        /\ File05.save_dataset disk name None s = Ok tt s)
  /\ (forall http disk depth s,
        exists new,
          trace (final (File04.main http disk depth s)) = trace s ++ new
          /\ Forall (fun w : string * DataFrame => w.2 <> []) (csv_written new))
  /\ (forall http disk depth s,
        exists new,
          trace (final (File05.main http disk depth s)) = trace s ++ new
          /\ Forall (fun w : string * DataFrame => w.2 <> []) (csv_written new)).
Proof.
  split; [|split; [|split]].
  - intros http depth k r p lo hi f c s.
    destruct (download_dataset_spec http depth k r p lo hi f c s)
      as (new & Ht & _ & _ & _ & _ & Hres).
    destruct (File04.download_dataset http depth k r p lo hi f c s) as [df s'|e s']; [|done].
    cbn [final] in Ht. destruct Hres as [Hrows Hne].
    exists df, s', new. split; [done|]. split; [done|].
    rewrite <- success_rows_nil, <- Hrows. split.
    + destruct df as [d|]; cbn; [|done]. split; [done|]. intros ->. done.
    + intros d ->. split; [congruence|done].
  - intros disk name s. by split.
  - intros http disk depth s.
    destruct (steps_main http disk depth s) as (new & Ht & _ & Hs & _).
    exists new. split; [done|]. by apply sound_csv_written.
  - intros http disk depth s.
    destruct (steps_main_05 http disk depth s) as (new & Ht & _ & Hs & _).
    exists new. split; [done|]. by apply sound_csv_written.
Qed.

Lemma absent_when_all_empty :
  exists s',
    File04.download_dataset always_empty 1 API_KEY "170" "156" 1992 1994 "M" "AG6" initial_state
    = Ok None s'
    /\ attempts (trace s') = 3
    /\ forall e, e ∈ trace s' -> rows_of_event e = [].
Proof.
  set (run := File04.download_dataset always_empty 1 API_KEY "170" "156" 1992 1994
                "M" "AG6" initial_state).
  assert (Hrun : run = Ok None (final run)) by (vm_compute; reflexivity).
  destruct absent_iff_no_rows as [Hdataset _].
  destruct (Hdataset always_empty 1%nat API_KEY "170" "156" 1992 1994 "M" "AG6" initial_state)
    as (df & s' & new & Hrun' & Ht & Hnone & _).
  fold run in Hrun'. rewrite Hrun in Hrun'. apply Ok_inj in Hrun' as [<- <-].
  exists (final run). split; [exact Hrun|]. split; [vm_compute; reflexivity|].
  rewrite Ht. apply (proj1 Hnone). reflexivity.
Defined.

(** ** The quota gate of [main] *)

Lemma requests_of_snoc_print (t : list event) (line : output) :
  requests_of (t ++ [Print line]) = requests_of t.
Proof. rewrite requests_of_app. apply app_nil_r. Qed.

Lemma csv_written_snoc_print (t : list event) (line : output) :
  csv_written (t ++ [Print line]) = csv_written t.
Proof. rewrite csv_written_app. apply app_nil_r. Qed.

Lemma campaign_gated_04 http disk depth :
  campaign_gated (File04.main http disk depth) (File04.main_imports http disk depth)
    (File04.main_exports http disk depth).
Proof.
  intros s. split.
  { destruct (steps_main http disk depth s) as (new & Ht & _ & _ & _ & Hsort & _). eauto. }
  intros s2 Himp.
  destruct (steps_main_imports http disk depth s) as (new & Ht & _ & _ & Hb & _).
  rewrite Himp in Ht. cbn [final] in Ht.
  unfold File04.main, bind. rewrite Himp.
  unfold File04.main_gate, bind, read_call_counter.
  destruct (near_limit (call_counter s2)); [|reflexivity].
  eexists _, (new ++ [Print _]). split; [reflexivity|].
  cbn [record trace].
  split; [apply requests_of_snoc_print|]. split; [apply csv_written_snoc_print|].
  split; [by rewrite Ht, app_assoc|].
  rewrite phases_app. change (phases [Print _]) with (@nil nat). by rewrite app_nil_r.
Qed.

Lemma campaign_gated_05 http disk depth :
  campaign_gated (File05.main http disk depth) (File05.main_imports http disk depth)
    (File05.main_exports http disk depth).
Proof.
  intros s. split.
  { destruct (steps_main_05 http disk depth s) as (new & Ht & _ & _ & _ & Hsort & _). eauto. }
  intros s2 Himp.
  destruct (steps_main_imports_05 http disk depth s) as (new & Ht & _ & _ & Hb & _).
  rewrite Himp in Ht. cbn [final] in Ht.
  unfold File05.main, bind. rewrite Himp.
  unfold File05.main_gate, bind, read_call_counter.
  destruct (near_limit (call_counter s2)); [|reflexivity].
  exists s2, new. split; [reflexivity|]. do 3 (split; [done|]). done.
Qed.

(** C2, as the code has it: [main] runs the four downloads in the order of
    their numbers and looks at the counter once, after the second download;
    when the counter is then within 50 of the limit it exits with status 0,
    and nothing of downloads 3 and 4 is fetched or written.  There is no test
    between downloads 1 and 2. *)
Theorem quota_gate_after_second_download http disk depth :
  campaign_gated (File04.main http disk depth) (File04.main_imports http disk depth)
    (File04.main_exports http disk depth)
  /\ campaign_gated (File05.main http disk depth) (File05.main_imports http disk depth)
       (File05.main_exports http disk depth).
Proof. split; [apply campaign_gated_04|apply campaign_gated_05]. Qed.

Lemma quota_gate_exits_after_imports :
  exists s',
    File05.main always_one_row always_writable 1 (after_calls 449) = Raised (SystemExit 0) s'
    /\ call_counter s' = 451
    /\ csv_written (trace s')
       = [("colombia_imports_from_china_HS6.csv", [one_row 1992]);
          ("colombia_imports_from_world_HS6.csv", [one_row 1992])]
    /\ Forall (fun n => (1 <= n <= 2)%nat) (phases (trace s')).
Proof.
  set (imports := File05.main_imports always_one_row always_writable 1 (after_calls 449)).
  destruct (quota_gate_after_second_download always_one_row always_writable 1) as [_ H05].
  destruct (H05 (after_calls 449)) as [_ Hgate].
  assert (Himp : imports = Ok tt (final imports)) by (vm_compute; reflexivity).
  assert (Hnear : near_limit (call_counter (final imports)) = true)
    by (vm_compute; reflexivity).
  specialize (Hgate _ Himp). rewrite Hnear in Hgate.
  destruct Hgate as (s' & new & Hmain & _ & _ & Ht & Hb).
  exists s'. split; [exact Hmain|].
  apply (f_equal final) in Hmain. cbn [final] in Hmain. subst s'.
  split; [vm_compute; reflexivity|]. split; [vm_compute; reflexivity|].
  rewrite Ht. exact Hb.
Defined.

Lemma second_download_not_gated :
  exists df s1,
    File05.download_dataset (throttled_first 449) 450 API_KEY "170" "156" 1992 2023 "M" "AG6"
      initial_state = Ok df s1
    /\ near_limit (call_counter s1) = true
    /\ requests_of
         (trace (final (File05.main (throttled_first 449) always_writable 450 initial_state)))
         !! 450%nat
       = Some (year_request API_KEY "170" "0" 1992 "M" "AG6").
Proof.
  eexists _, _. split; [vm_compute; reflexivity|]. split; vm_compute; reflexivity.
Qed.

(** ** The loop over the partner countries *)

Lemma set_column_relabelled (column : string) (value : cell) (df : DataFrame) :
  Forall2 (relabelled column value) df (set_column column value df).
Proof.
  unfold set_column. induction df as [|r df IH]; constructor; [|exact IH].
  split; [apply lookup_insert_eq|]. intros col Hcol. by apply lookup_insert_ne.
Qed.

Lemma concat_labelled_frames (runs : list (string * option DataFrame)) :
  pd_concat (labelled_frames runs) = flat_map labelled runs.
Proof.
  unfold pd_concat, labelled_frames. induction runs as [|[name df] runs IH]; [done|].
  cbn [flat_map]. rewrite concat_app, IH. f_equal.
  unfold labelled. destruct df as [d|]; cbn; [by rewrite app_nil_r|done].
Qed.

Lemma lac_loop_runs http depth names s runs s' lac_data :
  partner_runs http depth names s runs s' ->
  File04.lac_loop http depth names lac_data s = Ok (lac_data ++ labelled_frames runs) s'.
Proof.
  intros Hruns. revert lac_data.
  induction Hruns as [s|name code names s df s1 runs s2 Hcode Hrun _ IH]; intros lac_data.
  { cbn. by rewrite app_nil_r. }
  cbn [File04.lac_loop]. unfold bind at 1.
  change (subscript COUNTRIES "China" s) with (Ok (A:=string) "156" s). cbn iota beta.
  unfold bind at 1. unfold subscript. rewrite Hcode. cbn [ret]. cbn iota beta.
  unfold bind at 1. rewrite Hrun. cbn iota beta.
  unfold bind at 1. cbn [time_sleep emit]. cbn iota beta.
  rewrite IH. f_equal. cbn [labelled_frames flat_map snd fst].
  destruct df as [d|]; [by rewrite <- app_assoc|done].
Qed.

Lemma lac_loop_same http depth names lac_data s :
  File05.lac_loop http depth names lac_data s = File04.lac_loop http depth names lac_data s.
Proof.
  revert lac_data s. induction names as [|name names IH]; intros lac_data s; [done|].
  cbn [File05.lac_loop File04.lac_loop]. rewrite download_dataset_eq.
  unfold bind.
  destruct (subscript COUNTRIES "China" s) as [reporter s1|e s1]; [|done].
  destruct (subscript COUNTRIES name s1) as [partner s2|e s2]; [|done].
  destruct (File04.download_dataset http depth API_KEY reporter partner 1992 2023 "X" "AG6" s2)
    as [df s3|e s3]; [|done].
  destruct (time_sleep 2000 s3) as [[] s4|e s4]; [|done].
  apply IH.
Qed.

(** The sub-runs all return: the loop goes through the whole list. *)
Lemma partner_runs_exist http depth names s :
  Forall (fun name => is_Some (COUNTRIES !! name)) names ->
  exists runs s', partner_runs http depth names s runs s'.
Proof.
  intros Hnames. revert s.
  induction Hnames as [|name names [code Hcode] _ IH]; intros s.
  { exists [], s. constructor. }
  destruct (download_dataset_returns http depth API_KEY "156" code 1992 2023 "X" "AG6" s)
    as (df & s1 & Hrun).
  destruct (IH (record (Sleep 2000) s1)) as (runs & s2 & Hruns).
  exists ((name, df) :: runs), s2. by econstructor.
Qed.

Lemma partner_runs_det http depth names s runs s1 runs' s1' :
  partner_runs http depth names s runs s1 ->
  partner_runs http depth names s runs' s1' ->
  runs = runs' /\ s1 = s1'.
Proof.
  intros H. revert runs' s1'.
  induction H as [s|name code names s df s1 runs s2 Hcode Hrun _ IH]; intros runs' s1' H'.
  { by inversion H'. }
  inversion H' as [|name' code' names' s' df' sa runs'' sb Hcode' Hrun' Hrest]; subst.
  rewrite Hcode in Hcode'. injection Hcode' as <-.
  rewrite Hrun in Hrun'. apply Ok_inj in Hrun' as [<- <-].
  by destruct (IH _ _ Hrest) as [<- <-].
Qed.

Lemma partner_runs_names http depth names s runs s' :
  partner_runs http depth names s runs s' -> runs.*1 = names.
Proof.
  induction 1 as [|name code names s df s1 runs s2 _ _ _ IH]; [done|].
  cbn. by rewrite IH.
Qed.

Lemma partner_runs_no_empty_frame http depth names s runs s' :
  partner_runs http depth names s runs s' -> no_empty_frame (labelled_frames runs).
Proof.
  induction 1 as [|name code names s df s1 runs s2 _ Hrun _ IH]; [constructor|].
  unfold labelled_frames. cbn [flat_map fst snd]. apply Forall_app. split; [|exact IH].
  destruct (download_dataset_spec http depth API_KEY "156" code 1992 2023 "X" "AG6" s)
    as (new & _ & _ & _ & _ & _ & Hres).
  rewrite Hrun in Hres. destruct Hres as [_ Hne].
  destruct df as [d|]; [|constructor]. constructor; [|constructor].
  destruct d; [done|discriminate].
Qed.

(** What download 4 does once the loop over the partners has returned the
    frames [lac_data] in the world [s1]. *)
Lemma download_lac_04 http disk depth names s0 lac_data s1 :
  File04.lac_loop http depth names []
    (record (Print (Line "[4/4] China exports to LAC countries (HS6)...")) s0)
    = Ok lac_data s1 ->
  no_empty_frame lac_data ->
  File04.download_lac http disk depth names s0 =
    match pd_concat lac_data with
    | [] => Ok tt s1
    | _ :: _ =>
      if disk (csv_written (trace s1)) "china_exports_to_lac_HS6.csv" (pd_concat lac_data)
      then Ok tt (record (Print (RecordsLine (length (pd_concat lac_data)) (call_counter s1)))
                    (record (ToCsv OUTPUT_DIR "china_exports_to_lac_HS6.csv"
                               (pd_concat lac_data)) s1))
      else Raised OSError s1
    end.
Proof.
  intros Hloop Hall. unfold File04.download_lac, bind at 1, print, emit.
  unfold bind at 1. rewrite Hloop.
  destruct lac_data as [|d lac_data]; [reflexivity|].
  pose proof (concat_nonempty _ _ Hall) as Hne.
  destruct (pd_concat (d :: lac_data)) as [|row0 rows] eqn:Hcat; [done|].
  unfold bind, to_csv.
  destruct (disk _ _ _); reflexivity.
Qed.

Lemma download_lac_05 http disk depth names s lac_data s1 :
  File05.lac_loop http depth names [] s = Ok lac_data s1 ->
  no_empty_frame lac_data ->
  File05.download_lac http disk depth names s =
    match pd_concat lac_data with
    | [] => Ok tt s1
    | _ :: _ =>
      if disk (csv_written (trace s1)) "china_exports_to_lac_HS6.csv" (pd_concat lac_data)
      then Ok tt (record (ToCsv OUTPUT_DIR "china_exports_to_lac_HS6.csv"
                            (pd_concat lac_data)) s1)
      else Raised OSError s1
    end.
Proof.
  intros Hloop Hall. unfold File05.download_lac, bind. rewrite Hloop.
  destruct lac_data as [|d lac_data]; [reflexivity|].
  pose proof (concat_nonempty _ _ Hall) as Hne.
  destruct (pd_concat (d :: lac_data)) as [|row0 rows] eqn:Hcat; [done|].
  reflexivity.
Qed.

(** C8: the loop over the partner countries goes through the whole list, in
    order; the rows of each sub-run get the name of its partner in the column
    [partner_country], the other columns are untouched; the frames gathered
    are concatenated, and the combined table, which is the labelled rows of
    the first partner, then those of the second, and so on, is what is
    written to [china_exports_to_lac_HS6.csv] (nothing is written when no
    sub-run brought rows). *)
Theorem partner_rows_labelled http disk depth names s :
  Forall (fun name => is_Some (COUNTRIES !! name)) names ->
  exists runs s1,
    let combined := flat_map labelled runs in
    partner_runs http depth names s runs s1
    /\ runs.*1 = names
    /\ Forall
         (fun run : string * option DataFrame =>
            Forall2 (relabelled "partner_country" (CStr run.1)) (rows_of run.2) (labelled run))
         runs
    /\ (exists lac_data,
          File04.lac_loop http depth names [] s = Ok lac_data s1
          /\ File05.lac_loop http depth names [] s = Ok lac_data s1
          /\ pd_concat lac_data = combined)
    /\ File05.download_lac http disk depth names s =
         match combined with
         | [] => Ok tt s1
         | _ :: _ =>
           if disk (csv_written (trace s1)) "china_exports_to_lac_HS6.csv" combined
           then Ok tt (record (ToCsv OUTPUT_DIR "china_exports_to_lac_HS6.csv" combined) s1)
           else Raised OSError s1
         end
    /\ forall s0,
         s = record (Print (Line "[4/4] China exports to LAC countries (HS6)...")) s0 ->
         File04.download_lac http disk depth names s0 =
           match combined with
           | [] => Ok tt s1
           | _ :: _ =>
             if disk (csv_written (trace s1)) "china_exports_to_lac_HS6.csv" combined
             then Ok tt (record (Print (RecordsLine (length combined) (call_counter s1)))
                           (record (ToCsv OUTPUT_DIR "china_exports_to_lac_HS6.csv" combined)
                              s1))
             else Raised OSError s1
           end.
Proof.
  intros Hnames.
  destruct (partner_runs_exist http depth names s Hnames) as (runs & s1 & Hruns).
  exists runs, s1. cbn zeta.
  pose proof (lac_loop_runs _ _ _ _ _ _ [] Hruns) as Hloop. cbn [app] in Hloop.
  pose proof (partner_runs_no_empty_frame _ _ _ _ _ _ Hruns) as Hall.
  split; [exact Hruns|]. split; [by eapply partner_runs_names|]. split.
  { apply Forall_forall. intros run _. apply set_column_relabelled. }
  split.
  { exists (labelled_frames runs). split; [exact Hloop|].
    split; [by rewrite lac_loop_same|apply concat_labelled_frames]. }
  split.
  - rewrite <- lac_loop_same in Hloop.
    rewrite (download_lac_05 _ disk _ _ _ _ _ Hloop Hall).
    by rewrite concat_labelled_frames.
  - intros s0 ->.
    rewrite (download_lac_04 _ disk _ _ _ _ _ Hloop Hall).
    by rewrite concat_labelled_frames.
Qed.

Lemma partner_rows_labelled_chile_peru :
  exists s',
    File05.download_lac rows_in_1992 always_writable 1 ["Chile"; "Peru"] initial_state
      = Ok tt s'
    /\ csv_written (trace s')
       = [ ("china_exports_to_lac_HS6.csv",
            [ <["partner_country" := CStr "Chile"]> (one_row 1992);
              <["partner_country" := CStr "Peru"]> (one_row 1992) ]) ].
Proof.
  set (chile := File04.download_dataset rows_in_1992 1 API_KEY "156" "152" 1992 2023
                  "X" "AG6" initial_state).
  set (peru := File04.download_dataset rows_in_1992 1 API_KEY "156" "604" 1992 2023
                 "X" "AG6" (record (Sleep 2000) (final chile))).
  assert (H1 : chile = Ok (Some [one_row 1992]) (final chile)) by (vm_compute; reflexivity).
  assert (H2 : peru = Ok (Some [one_row 1992]) (final peru)) by (vm_compute; reflexivity).
  pose proof (partner_runs_cons _ _ "Chile" "152" ["Peru"] _ _ _ _ _ eq_refl H1
                (partner_runs_cons _ _ "Peru" "604" [] _ _ _ _ _ eq_refl H2
                   (partner_runs_nil _ _ _))) as Hruns.
  destruct (partner_rows_labelled rows_in_1992 always_writable 1 ["Chile"; "Peru"]
              initial_state) as (runs & s1 & Hruns' & _ & _ & _ & Hlac & _).
  { repeat constructor; eexists; vm_compute; reflexivity. }
  destruct (partner_runs_det _ _ _ _ _ _ _ _ Hruns' Hruns) as [-> ->].
  eexists. split; [exact Hlac|]. vm_compute. reflexivity.
Defined.

(** ** The two scripts side by side *)

Lemma requests_of_silent (t : list event) : requests_of (silent t) = requests_of t.
Proof.
  induction t as [|e t IH]; [done|].
  change (e :: t) with ([e] ++ t). rewrite silent_app, !requests_of_app, IH.
  f_equal. destruct e; reflexivity.
Qed.

Lemma alike_refl (s : state) : alike s s.
Proof. by split. Qed.

Lemma alike_requests (s4 s5 : state) :
  alike s4 s5 -> requests_of (trace s4) = requests_of (trace s5).
Proof. intros [_ H]. by rewrite <- (requests_of_silent (trace s4)), H, requests_of_silent. Qed.

Lemma alike_record (e : event) (s4 s5 : state) :
  alike s4 s5 -> alike (record e s4) (record e s5).
Proof.
  intros [Hc Ht]. split; [done|]. cbn [record trace]. by rewrite !silent_app, Ht.
Qed.

Lemma alike_print_l (line : output) (s4 s5 : state) :
  alike s4 s5 -> alike (record (Print line) s4) s5.
Proof.
  intros [Hc Ht]. split; [done|]. cbn [record trace]. rewrite silent_app, Ht.
  apply app_nil_r.
Qed.

Lemma csv_written_silent (t : list event) : csv_written (silent t) = csv_written t.
Proof.
  induction t as [|e t IH]; [done|].
  change (e :: t) with ([e] ++ t). rewrite silent_app, !csv_written_app, IH.
  f_equal. destruct e; reflexivity.
Qed.

Lemma alike_csv_written (s4 s5 : state) :
  alike s4 s5 -> csv_written (trace s4) = csv_written (trace s5).
Proof. intros [_ H]. by rewrite <- (csv_written_silent (trace s4)), H, csv_written_silent. Qed.

Lemma alike_bump (s4 s5 : state) : alike s4 s5 -> alike (bump s4) (bump s5).
Proof. intros [Hc Ht]. split; [cbn; lia|done]. Qed.

Lemma simulates_ret {A} (a : A) : simulates (ret a) (ret a).
Proof. intros s4 s5 Hs. by split. Qed.

Lemma simulates_raise {A} (e : exn) : simulates (raise (A:=A) e) (raise e).
Proof. intros s4 s5 Hs. by split. Qed.

Lemma simulates_bind {A B} (m4 m5 : M A) (k4 k5 : A -> M B) :
  simulates m4 m5 -> (forall a, simulates (k4 a) (k5 a)) ->
  simulates (bind m4 k4) (bind m5 k5).
Proof.
  intros Hm Hk s4 s5 Hs. unfold bind. specialize (Hm s4 s5 Hs).
  destruct (m4 s4) as [a4 s4'|e4 s4'], (m5 s5) as [a5 s5'|e5 s5']; try done.
  destruct Hm as [-> Hs']. by apply Hk.
Qed.

Lemma simulates_emit (e : event) : simulates (emit e) (emit e).
Proof. intros s4 s5 Hs. split; [done|]. by apply alike_record. Qed.

Lemma simulates_to_csv disk (dir name : string) (df : DataFrame) :
  simulates (to_csv disk dir name df) (to_csv disk dir name df).
Proof.
  intros s4 s5 Hs. unfold to_csv. rewrite (alike_csv_written _ _ Hs).
  destruct (disk _ _ _); (split; [done|]); [by apply alike_record|done].
Qed.

Lemma simulates_read : simulates read_call_counter read_call_counter.
Proof. intros s4 s5 Hs. split; [apply Hs|done]. Qed.

Lemma simulates_subscript (d : gmap string string) (key : string) :
  simulates (subscript d key) (subscript d key).
Proof.
  unfold subscript. destruct (d !! key); [apply simulates_ret|apply simulates_raise].
Qed.

Lemma simulates_print_l {A} (line : output) (m4 m5 : M A) :
  simulates m4 m5 -> simulates (print line ;;; m4) m5.
Proof. intros Hm s4 s5 Hs. apply Hm. by apply alike_print_l. Qed.

Lemma simulates_read_l {A} (k4 : Z -> M A) (m5 : M A) :
  (forall calls, simulates (k4 calls) m5) -> simulates (bind read_call_counter k4) m5.
Proof. intros Hk s4 s5 Hs. by apply Hk. Qed.

Lemma simulates_quiet_after (m4 m5 k4 : M unit) :
  simulates m4 m5 -> simulates k4 (ret tt) -> simulates (m4 ;;; k4) m5.
Proof.
  intros Hm Hk s4 s5 Hs. unfold bind. specialize (Hm s4 s5 Hs).
  destruct (m4 s4) as [a4 s4'|e4 s4'], (m5 s5) as [[] s5'|e5 s5']; try done.
  destruct Hm as [_ Hs']. by apply Hk.
Qed.

Lemma download_year_alike http depth k r p y f c :
  simulates (File04.download_year http depth k r p y f c)
    (File05.download_year http depth k r p y f c).
Proof.
  rewrite download_year_eq.
  induction depth as [|depth IH]; intros s4 s5 Hs.
  { rewrite !download_year_at_limit. split; [done|]. by apply alike_record. }
  rewrite !download_year_step. cbn zeta.
  rewrite (alike_requests _ _ Hs).
  set (req := year_request k r p y f c).
  assert (H1 : alike (bump (record (Get req (http (requests_of (trace s5)) req)) s4))
                     (bump (record (Get req (http (requests_of (trace s5)) req)) s5))).
  { by apply alike_bump, alike_record. }
  destruct (http (requests_of (trace s5)) req) as [|code body].
  { split; [done|]. by apply alike_record. }
  destruct (code =? 200).
  { destruct body as [|[rows|]]; [by split| |by split].
    by destruct (0 <? length rows)%nat. }
  destruct (code =? 429); [|by split].
  apply IH. by apply alike_record.
Qed.

Lemma download_dataset_loop_alike http depth k r p years f c all :
  simulates (File04.download_dataset_loop http depth k r p years f c all)
    (File05.download_dataset_loop http depth k r p years f c all).
Proof.
  revert all. induction years as [|y years IH]; intros all; [apply simulates_ret|].
  cbn [File04.download_dataset_loop File05.download_dataset_loop].
  apply simulates_bind; [apply download_year_alike|]. intros df.
  apply simulates_bind; [apply simulates_emit|]. intros _.
  apply simulates_bind; [apply simulates_read|]. intros calls.
  destruct (near_limit calls); [apply simulates_ret|apply IH].
Qed.

Lemma download_dataset_alike http depth k r p lo hi f c :
  simulates (File04.download_dataset http depth k r p lo hi f c)
    (File05.download_dataset http depth k r p lo hi f c).
Proof.
  apply simulates_bind; [apply download_dataset_loop_alike|].
  intros [|d all]; apply simulates_ret.
Qed.

Lemma simulates_records_line (records : nat) :
  simulates (let* calls := read_call_counter in print (RecordsLine records calls)) (ret tt).
Proof.
  apply simulates_read_l. intros calls s4 s5 Hs. split; [done|]. by apply alike_print_l.
Qed.

Lemma save_dataset_alike disk (name : string) (df : option DataFrame) :
  simulates (File04.save_dataset disk name df) (File05.save_dataset disk name df).
Proof.
  destruct df as [d|]; [|apply simulates_ret].
  apply simulates_quiet_after; [apply simulates_to_csv|apply simulates_records_line].
Qed.

Lemma lac_loop_alike http depth names lac_data :
  simulates (File04.lac_loop http depth names lac_data)
    (File05.lac_loop http depth names lac_data).
Proof.
  revert lac_data. induction names as [|name names IH]; intros lac_data;
    [apply simulates_ret|].
  cbn [File04.lac_loop File05.lac_loop].
  apply simulates_bind; [apply simulates_subscript|]. intros reporter.
  apply simulates_bind; [apply simulates_subscript|]. intros partner.
  apply simulates_bind; [apply download_dataset_alike|]. intros df.
  apply simulates_bind; [apply simulates_emit|]. intros _. apply IH.
Qed.

Lemma download_lac_alike http disk depth names :
  simulates (File04.download_lac http disk depth names)
    (File05.download_lac http disk depth names).
Proof.
  apply simulates_print_l.
  apply simulates_bind; [apply lac_loop_alike|].
  intros [|d lac_data]; [apply simulates_ret|].
  apply simulates_quiet_after; [apply simulates_to_csv|apply simulates_records_line].
Qed.

Lemma main_imports_alike http disk depth :
  simulates (File04.main_imports http disk depth) (File05.main_imports http disk depth).
Proof.
  do 2 apply simulates_print_l.
  apply simulates_bind; [apply simulates_subscript|]. intros reporter.
  apply simulates_bind; [apply simulates_subscript|]. intros partner.
  apply simulates_bind; [apply download_dataset_alike|]. intros df.
  apply simulates_bind; [apply save_dataset_alike|]. intros _.
  apply simulates_print_l.
  apply simulates_bind; [apply simulates_subscript|]. intros reporter2.
  apply simulates_bind; [apply simulates_subscript|]. intros partner2.
  apply simulates_bind; [apply download_dataset_alike|]. intros df2.
  apply save_dataset_alike.
Qed.

Lemma main_gate_alike : simulates File04.main_gate File05.main_gate.
Proof.
  apply simulates_bind; [apply simulates_read|]. intros calls.
  destruct (near_limit calls); [|apply simulates_ret].
  apply simulates_print_l, simulates_raise.
Qed.

Lemma main_exports_alike http disk depth :
  simulates (File04.main_exports http disk depth) (File05.main_exports http disk depth).
Proof.
  apply simulates_print_l.
  apply simulates_bind; [apply simulates_subscript|]. intros reporter.
  apply simulates_bind; [apply simulates_subscript|]. intros partner.
  apply simulates_bind; [apply download_dataset_alike|]. intros df.
  apply simulates_bind; [apply save_dataset_alike|]. intros _.
  apply simulates_quiet_after; [apply download_lac_alike|].
  apply simulates_print_l, simulates_read_l. intros calls.
  do 2 apply simulates_print_l.
  intros s4 s5 Hs. split; [done|]. by apply alike_print_l.
Qed.

Lemma main_alike http disk depth :
  simulates (File04.main http disk depth) (File05.main http disk depth).
Proof.
  apply simulates_bind; [apply main_imports_alike|]. intros _.
  apply simulates_bind; [apply main_gate_alike|]. intros _.
  apply main_exports_alike.
Qed.

(** C9: the two scripts define the same [download_year] and the same
    [download_dataset]: the same result and the same world for every service,
    every argument and every world they start in; and their [main] differ in
    what they print only: started in the same world they end the same way,
    with the same counter and the same trace once the printed lines are
    left out. *)
Theorem scripts_agree :
  (forall http depth k r p y f c s,
     File04.download_year http depth k r p y f c s
     = File05.download_year http depth k r p y f c s)
  /\ (forall http depth k r p lo hi f c s,
        File04.download_dataset http depth k r p lo hi f c s
        = File05.download_dataset http depth k r p lo hi f c s)
  /\ (forall http disk depth s,
        agree (File04.main http disk depth s) (File05.main http disk depth s)).
Proof.
  split; [|split].
  - intros. symmetry. apply download_year_same.
  - intros. symmetry. apply download_dataset_same.
  - intros http disk depth s. apply main_alike, alike_refl.
Qed.

(** ** Further properties of [download_year] and [download_dataset] *)

Lemma errors_swallowed_by_download http depth k r p lo hi f c s e s' :
  File04.download_dataset http depth k r p lo hi f c s <> Raised e s'.
Proof.
  intros Hrun.
  destruct (download_dataset_spec http depth k r p lo hi f c s)
    as (new & _ & _ & _ & _ & _ & Hres).
  by rewrite Hrun in Hres.
Qed.

(** X1: no exception leaves [download_year] or [download_dataset]: a
    connection error, a body that is not JSON, any status are swallowed, and
    the caller gets a frame or [None]. *)
Theorem errors_are_swallowed http depth k r p lo hi f c s e s' :
  File04.download_year http depth k r p lo f c s <> Raised e s'
  /\ File04.download_dataset http depth k r p lo hi f c s <> Raised e s'.
Proof.
  split; [apply download_year_no_raise|apply errors_swallowed_by_download].
Qed.

(** X2: over an empty range of years ([end_year < start_year])
    [download_dataset] returns [None] and does nothing: no request, no wait,
    the counter untouched. *)
Theorem empty_range_does_nothing http depth k r p lo hi f c s :
  hi < lo ->
  File04.download_dataset http depth k r p lo hi f c s = Ok None s.
Proof.
  intros Hlt. rewrite download_dataset_unfold.
  unfold range. by rewrite seqZ_nil by lia.
Qed.

Lemma empty_range_does_nothing_2023_1992 :
  File04.download_dataset always_one_row 1 API_KEY "170" "156" 2023 1992 "M" "AG6"
    initial_state = Ok None initial_state.
Proof. apply empty_range_does_nothing. lia. Defined.

(** X3: every request that [download_dataset] sends is the request of
    [download_year] for its own key, reporter, partner, flow and commodity
    code, for a year of its range; it writes no file and prints nothing. *)
Theorem requests_are_those_asked http depth k r p lo hi f c s :
  exists new,
    trace (final (File04.download_dataset http depth k r p lo hi f c s)) = trace s ++ new
    /\ Forall (asked_by k r p lo hi f c) (requests_of new)
    /\ csv_written new = []
    /\ silent new = new.
Proof.
  destruct (download_dataset_spec http depth k r p lo hi f c s) as (new & Ht & _ & Hev & _).
  exists new. split; [done|]. clear Ht.
  induction Hev as [|e new He _ (IH1 & IH2 & IH3)]; [by repeat split|].
  destruct e as [req a|ms|dir name df|line]; try done.
  - destruct He as (y & Hy%elem_of_range & ->). split; [|split].
    + constructor; [|exact IH1]. split; [reflexivity|]. cbn. lia.
    + exact IH2.
    + change (silent (?e :: new)) with (e :: silent new). by rewrite IH3.
  - split; [exact IH1|]. split; [exact IH2|].
    change (silent (?e :: new)) with (e :: silent new). by rewrite IH3.
Qed.

(** X4: a run of [download_dataset] over the years up to [hi] is its run over
    the years before [mid] followed, when the counter is still below the
    threshold, by the loop over the years from [mid] on, started with the
    frames gathered so far. *)
Theorem download_dataset_resumes http depth k r p lo mid hi f c s all1 s1 :
  lo < mid <= hi + 1 ->
  File04.download_dataset_loop http depth k r p (range lo mid) f c [] s = Ok all1 s1 ->
  near_limit (call_counter s1) = false ->
  File04.download_dataset http depth k r p lo hi f c s =
    match File04.download_dataset_loop http depth k r p (range mid (hi + 1)) f c all1 s1 with
    | Ok all s2 => Ok (gathered all) s2
    | Raised e s2 => Raised e s2
    end.
Proof.
  intros Hmid Hpre Hgo. rewrite download_dataset_unfold.
  assert (Hsplit : range lo (hi + 1) = range lo mid ++ range mid (hi + 1)).
  { unfold range. replace (hi + 1 - lo) with ((mid - lo) + (hi + 1 - mid)) by lia.
    rewrite seqZ_app by lia. do 2 f_equal. lia. }
  rewrite Hsplit.
  by rewrite (download_dataset_loop_app _ _ _ _ _ _ _ _ _ _ _ _ _ Hpre (or_intror Hgo)).
Qed.

Lemma download_dataset_resumes_in_1994 :
  let pre := File04.download_dataset_loop gap_in_1993 1 API_KEY "170" "156"
               (range 1992 1994) "M" "AG6" [] initial_state in
  File04.download_dataset gap_in_1993 1 API_KEY "170" "156" 1992 1994 "M" "AG6" initial_state
  = match File04.download_dataset_loop gap_in_1993 1 API_KEY "170" "156"
            (range 1994 1995) "M" "AG6" [[one_row 1992; one_row 1992]] (final pre) with
    | Ok all s2 => Ok (gathered all) s2
    | Raised e s2 => Raised e s2
    end.
Proof.
  cbn zeta.
  set (pre := File04.download_dataset_loop gap_in_1993 1 API_KEY "170" "156"
                (range 1992 1994) "M" "AG6" [] initial_state).
  assert (Hpre : pre = Ok [[one_row 1992; one_row 1992]] (final pre))
    by (vm_compute; reflexivity).
  assert (Hgo : near_limit (call_counter (final pre)) = false) by (vm_compute; reflexivity).
  apply (download_dataset_resumes gap_in_1993 1 API_KEY "170" "156" 1992 1994 1994 "M" "AG6"
           initial_state _ _ ltac:(lia) Hpre Hgo).
Defined.

Lemma download_year_paced http depth k r p y f c s df s' :
  File04.download_year http depth k r p y f c s = Ok df s' ->
  exists new,
    trace s' = trace s ++ new
    /\ forall ms t, 1500 <= ms -> paced t -> paced (new ++ Sleep ms :: t).
Proof.
  revert s. induction depth as [|depth IH]; intros s.
  { rewrite download_year_at_limit. intros [= <- <-].
    eexists [_]. split; [reflexivity|]. intros ms t Hms Ht. by split. }
  rewrite download_year_step; cbn zeta.
  set (req := year_request k r p y f c).
  assert (Hone : forall cnt,
    exists new,
      trace {| call_counter := cnt;
               trace := trace s ++ [Get req (http (requests_of (trace s)) req)] |}
      = trace s ++ new
      /\ forall ms t, 1500 <= ms -> paced t -> paced (new ++ Sleep ms :: t)).
  { intros cnt. eexists [_]. split; [reflexivity|]. intros ms t Hms Ht. by split. }
  destruct (http (requests_of (trace s)) req) as [|code body] eqn:Ha.
  { intros [= <- <-]. apply Hone. }
  destruct (code =? 200).
  { destruct body as [|[rows|]]; [intros [= <- <-]; apply Hone| |intros [= <- <-]; apply Hone].
    destruct (0 <? length rows)%nat; intros [= <- <-]; apply Hone. }
  destruct (code =? 429); [|intros [= <- <-]; apply Hone].
  intros Hrun. destruct (IH _ Hrun) as (new & Ht & Hp).
  exists (Get req (Response code body) :: Sleep 60000 :: new). split.
  - rewrite Ht. cbn [record bump trace]. by rewrite <- !app_assoc.
  - intros ms t Hms Hpaced. cbn [app paced]. split; [lia|]. by apply Hp.
Qed.

Lemma download_dataset_loop_paced http depth k r p years f c all s all' s' :
  File04.download_dataset_loop http depth k r p years f c all s = Ok all' s' ->
  exists new, trace s' = trace s ++ new /\ forall t, paced t -> paced (new ++ t).
Proof.
  revert all s. induction years as [|y years IH]; intros all s.
  { intros [= <- <-]. exists []. split; [by rewrite app_nil_r|done]. }
  rewrite download_dataset_loop_step.
  destruct (File04.download_year http depth k r p y f c s) as [df s1|e s1] eqn:Hyear;
    [|done].
  destruct (download_year_paced _ _ _ _ _ _ _ _ _ _ _ Hyear) as (new1 & Ht1 & Hp1).
  cbn zeta. destruct (near_limit _).
  - intros [= <- <-]. exists (new1 ++ [Sleep 1500]). split.
    + cbn [record trace]. by rewrite Ht1, app_assoc.
    + intros t Ht. rewrite <- app_assoc. apply Hp1; [lia|done].
  - intros Hrun. destruct (IH _ _ Hrun) as (new2 & Ht2 & Hp2).
    exists (new1 ++ Sleep 1500 :: new2). split.
    + rewrite Ht2. cbn [record trace]. by rewrite Ht1, <- !app_assoc.
    + intros t Ht. rewrite <- app_assoc. cbn [app]. apply Hp1; [lia|]. by apply Hp2.
Qed.

(** X5: when [download_dataset] returns, what it added to the trace is
    attempts and waits in turn: each attempt is followed at once by a wait,
    of sixty seconds after a status 429 and of a second and a half after the
    last attempt of a year, so no two requests go out back to back. *)
Theorem requests_are_paced http depth k r p lo hi f c s df s' :
  File04.download_dataset http depth k r p lo hi f c s = Ok df s' ->
  exists new, trace s' = trace s ++ new /\ paced new.
Proof.
  rewrite download_dataset_unfold.
  destruct (File04.download_dataset_loop http depth k r p (range lo (hi + 1)) f c [] s)
    as [all s1|e s1] eqn:Hloop; [|done].
  intros [= _ <-].
  destruct (download_dataset_loop_paced _ _ _ _ _ _ _ _ _ _ _ _ Hloop) as (new & Ht & Hp).
  exists new. split; [done|]. rewrite <- (app_nil_r new). by apply Hp.
Qed.

Lemma requests_are_paced_when_throttled :
  let run := File04.download_dataset (throttled_first 2) 3 API_KEY "170" "156" 1992 1993
               "M" "AG6" initial_state in
  paced (trace (final run)) /\ attempts (trace (final run)) = 4.
Proof.
  cbn zeta.
  set (run := File04.download_dataset (throttled_first 2) 3 API_KEY "170" "156" 1992 1993
                "M" "AG6" initial_state).
  assert (Hrun : run = Ok (Some [one_row 1992; one_row 1993]) (final run))
    by (vm_compute; reflexivity).
  destruct (requests_are_paced _ _ _ _ _ _ _ _ _ _ _ _ Hrun) as (new & Ht & Hp).
  split; [by rewrite Ht|vm_compute; reflexivity].
Defined.

(** X6: a download followed by its save, as [main] does three times: when
    the two return, a file was written exactly when an attempt delivered
    rows, and the file holds the rows delivered, in the order of the
    attempts; nothing else is written. *)
Theorem saved_file_holds_delivered_rows http disk depth k r p lo hi f c name s s' :
  bind (File04.download_dataset http depth k r p lo hi f c) (File04.save_dataset disk name) s
    = Ok tt s' ->
  exists new,
    trace s' = trace s ++ new
    /\ csv_written new
       = match success_rows new with
         | [] => []
         | _ :: _ => [(name, success_rows new)]
         end.
Proof.
  unfold bind.
  destruct (download_dataset_spec http depth k r p lo hi f c s)
    as (new & Ht & _ & Hev & _ & _ & Hres).
  assert (Hcsv : csv_written new = []).
  { clear -Hev. induction Hev as [|e new He _ IH]; [done|].
    by destruct e as [req a|ms|dir nm df|line]. }
  destruct (File04.download_dataset http depth k r p lo hi f c s) as [df s1|e s1];
    [|done].
  cbn [final] in Ht. destruct Hres as [Hrows Hne]. destruct df as [d|].
  - cbn [File04.save_dataset]. unfold bind, to_csv.
    destruct (disk _ _ _); [|done].
    cbn. intros [= <-]. eexists (new ++ [ToCsv OUTPUT_DIR name d; Print _]). split.
    + cbn [record trace]. by rewrite Ht, <- !app_assoc.
    + rewrite csv_written_app, success_rows_app, Hcsv, <- Hrows. cbn.
      rewrite app_nil_r. destruct d; [done|reflexivity].
  - cbn. intros [= <-]. exists new. split; [done|].
    by rewrite Hcsv, <- Hrows.
Qed.

Lemma saved_file_holds_rows_but_1993 :
  let run := bind (File04.download_dataset gap_in_1993 1 API_KEY "170" "156" 1992 1994
                     "M" "AG6")
                  (File04.save_dataset always_writable "colombia_imports_from_china_HS6.csv")
                  initial_state in
  csv_written (trace (final run))
  = [("colombia_imports_from_china_HS6.csv",
      [one_row 1992; one_row 1992; one_row 1994; one_row 1994])].
Proof.
  cbn zeta.
  set (run := bind _ _ initial_state).
  assert (Hrun : run = Ok tt (final run)) by (vm_compute; reflexivity).
  destruct (saved_file_holds_delivered_rows _ _ _ _ _ _ _ _ _ _ _ _ _ Hrun)
    as (new & Ht & Hcsv).
  rewrite Ht. change (trace initial_state ++ new) with new. rewrite Hcsv.
  assert (Hrows : success_rows new = [one_row 1992; one_row 1992; one_row 1994; one_row 1994]).
  { change new with (trace initial_state ++ new). rewrite <- Ht. vm_compute. reflexivity. }
  rewrite Hrows. reflexivity.
Defined.

(** ** How [main] may end *)

Lemma ends_ret b {A} (a : A) : ends b (ret a).
Proof. by intros s. Qed.

Lemma ends_emit b (e : event) : ends b (emit e).
Proof. by intros s. Qed.

Lemma ends_read b : ends b read_call_counter.
Proof. by intros s. Qed.

Lemma ends_exit b {A} : ends b (sys_exit (A:=A) 0).
Proof. intros s. by left. Qed.

Lemma ends_subscript b (d : gmap string string) (key : string) :
  is_Some (d !! key) -> ends b (subscript d key).
Proof. intros [v Hv] s. unfold subscript. by rewrite Hv. Qed.

Lemma ends_bind b {A B} (m : M A) (k : A -> M B) :
  ends b m -> (forall a, ends b (k a)) -> ends b (bind m k).
Proof.
  intros Hm Hk s. unfold bind. specialize (Hm s).
  destruct (m s) as [a s1|e s1]; [apply Hk|done].
Qed.

Lemma ends_download_dataset b http depth k r p lo hi f c :
  ends b (File04.download_dataset http depth k r p lo hi f c).
Proof.
  intros s. by destruct (download_dataset_returns http depth k r p lo hi f c s)
    as (df & s' & ->).
Qed.

Lemma ends_to_csv disk (dir name : string) (df : DataFrame) :
  ends true (to_csv disk dir name df).
Proof. intros s. unfold to_csv. destruct (disk _ _ _); [done|by right]. Qed.

Lemma ends_to_csv_never_fails disk (dir name : string) (df : DataFrame) :
  never_fails disk -> ends false (to_csv disk dir name df).
Proof. intros Hdisk s. unfold to_csv. by rewrite Hdisk. Qed.

Ltac country := apply ends_subscript; eexists; vm_compute; reflexivity.

Section Ends.
Context (http : oracle) (disk : storage) (depth : nat) (b : bool).
Hypothesis write_ends : forall dir name df, ends b (to_csv disk dir name df).

Lemma ends_save_dataset name df : ends b (File04.save_dataset disk name df).
Proof.
  destruct df as [d|]; [|apply ends_ret].
  apply ends_bind; [apply write_ends|]. intros _.
  apply ends_bind; [apply ends_read|]. intros calls. apply ends_emit.
Qed.

Lemma ends_lac_loop names lac_data :
  Forall (fun name => is_Some (COUNTRIES !! name)) names ->
  ends b (File04.lac_loop http depth names lac_data).
Proof.
  intros Hnames. revert lac_data.
  induction Hnames as [|name names Hname _ IH]; intros lac_data; [apply ends_ret|].
  cbn [File04.lac_loop].
  apply ends_bind; [country|]. intros reporter.
  apply ends_bind; [by apply ends_subscript|]. intros partner.
  apply ends_bind; [apply ends_download_dataset|]. intros df.
  apply ends_bind; [apply ends_emit|]. intros _. apply IH.
Qed.

Lemma lac_names_known :
  Forall (fun name => is_Some (COUNTRIES !! name))
    ["Chile"; "Peru"; "Brazil"; "Argentina"; "Ecuador"].
Proof. repeat constructor; eexists; vm_compute; reflexivity. Qed.

Lemma ends_main_imports : ends b (File04.main_imports http disk depth).
Proof.
  unfold File04.main_imports.
  do 2 (apply ends_bind; [apply ends_emit|]; intros _).
  apply ends_bind; [country|]. intros reporter.
  apply ends_bind; [country|]. intros partner.
  apply ends_bind; [apply ends_download_dataset|]. intros df.
  apply ends_bind; [apply ends_save_dataset|]. intros _.
  apply ends_bind; [apply ends_emit|]. intros _.
  apply ends_bind; [country|]. intros reporter2.
  apply ends_bind; [country|]. intros partner2.
  apply ends_bind; [apply ends_download_dataset|]. intros df2.
  apply ends_save_dataset.
Qed.

Lemma ends_main_gate : ends b File04.main_gate.
Proof.
  apply ends_bind; [apply ends_read|]. intros calls.
  destruct (near_limit calls); [|apply ends_ret].
  apply ends_bind; [apply ends_emit|]. intros _. apply ends_exit.
Qed.

Lemma ends_main_exports : ends b (File04.main_exports http disk depth).
Proof.
  unfold File04.main_exports.
  apply ends_bind; [apply ends_emit|]. intros _.
  apply ends_bind; [country|]. intros reporter.
  apply ends_bind; [country|]. intros partner.
  apply ends_bind; [apply ends_download_dataset|]. intros df.
  apply ends_bind; [apply ends_save_dataset|]. intros _.
  apply ends_bind.
  { apply ends_bind; [apply ends_emit|]. intros _.
    apply ends_bind; [apply ends_lac_loop, lac_names_known|].
    intros [|d lac_data]; [apply ends_ret|].
    apply ends_bind; [apply write_ends|]. intros _.
    apply ends_bind; [apply ends_read|]. intros calls. apply ends_emit. }
  intros _. apply ends_bind; [apply ends_emit|]. intros _.
  apply ends_bind; [apply ends_read|]. intros calls.
  do 2 (apply ends_bind; [apply ends_emit|]; intros _). apply ends_emit.
Qed.

Lemma ends_main : ends b (File04.main http disk depth).
Proof.
  apply ends_bind; [apply ends_main_imports|]. intros _.
  apply ends_bind; [apply ends_main_gate|]. intros _. apply ends_main_exports.
Qed.

End Ends.

Lemma tolerable_agree b {A} (r4 r5 : result A) :
  agree r4 r5 -> tolerable b r4 -> tolerable b r5.
Proof.
  destruct r4 as [a4 s4|e4 s4], r5 as [a5 s5|e5 s5]; try done.
  cbn. by intros [<- _].
Qed.

(** X7: the only exceptions that leave [main] are the [SystemExit] of its
    quota gate, with status 0, and the [OSError] of a [to_csv] that could not
    write its file: the country names it looks up are all in [COUNTRIES] and
    the downloads raise nothing.  Where every write succeeds, only the
    [SystemExit] is left. *)
Theorem main_raises_exit_0_or_write_error http disk depth s e s' :
  (File04.main http disk depth s = Raised e s' -> e = SystemExit 0 \/ e = OSError)
  /\ (File05.main http disk depth s = Raised e s' -> e = SystemExit 0 \/ e = OSError)
  /\ (never_fails disk -> File04.main http disk depth s = Raised e s' -> e = SystemExit 0)
  /\ (never_fails disk -> File05.main http disk depth s = Raised e s' -> e = SystemExit 0).
Proof.
  assert (Hany : forall b, (forall dir name df, ends b (to_csv disk dir name df)) ->
    tolerable b (File04.main http disk depth s)
    /\ tolerable b (File05.main http disk depth s)).
  { intros b Hb. pose proof (ends_main http disk depth b Hb s) as H04.
    split; [exact H04|].
    exact (tolerable_agree b _ _ (main_alike http disk depth s s (alike_refl s)) H04). }
  split; [|split; [|split]].
  - intros Hrun. destruct (Hany true (ends_to_csv disk)) as [H04 _].
    rewrite Hrun in H04. destruct H04 as [->|[_ ->]]; [by left|by right].
  - intros Hrun. destruct (Hany true (ends_to_csv disk)) as [_ H05].
    rewrite Hrun in H05. destruct H05 as [->|[_ ->]]; [by left|by right].
  - intros Hdisk Hrun.
    destruct (Hany false (fun dir name df => ends_to_csv_never_fails disk dir name df Hdisk))
      as [H04 _].
    rewrite Hrun in H04. by destruct H04 as [->|[? _]].
  - intros Hdisk Hrun.
    destruct (Hany false (fun dir name df => ends_to_csv_never_fails disk dir name df Hdisk))
      as [_ H05].
    rewrite Hrun in H05. by destruct H05 as [->|[? _]].
Qed.

Lemma main_raises_write_error_on_read_only_disk :
  let run := File05.main always_one_row read_only 1 initial_state in
  exists e,
    run = Raised e (final run)
    /\ (e = SystemExit 0 \/ e = OSError)
    /\ attempts (trace (final run)) = 32
    /\ csv_written (trace (final run)) = [].
Proof.
  cbn zeta. set (run := File05.main always_one_row read_only 1 initial_state).
  assert (Hrun : run = Raised OSError (final run)) by (vm_compute; reflexivity).
  exists OSError. split; [exact Hrun|]. split.
  - exact (proj1 (proj2 (main_raises_exit_0_or_write_error always_one_row read_only 1
                           initial_state OSError (final run))) Hrun).
  - split; vm_compute; reflexivity.
Defined.

(** ** A run on a service that never throttles *)

Lemma spends_ret {A} (a : A) : spends 0 (ret a).
Proof.
  intros s _. exists a, s, []. rewrite app_nil_r. repeat split; [done|lia..].
Qed.

Lemma spends_emit (e : event) : request_of e = None -> spends 0 (emit e).
Proof.
  intros He s _. exists tt, (record e s), [e]. split; [done|]. split; [done|].
  split; [|cbn; lia]. unfold attempts, requests_of. cbn. by rewrite He.
Qed.

Lemma spends_read : spends 0 read_call_counter.
Proof.
  intros s _. exists (call_counter s), s, []. rewrite app_nil_r.
  repeat split; [done|lia..].
Qed.

Lemma spends_subscript (d : gmap string string) (key : string) :
  is_Some (d !! key) -> spends 0 (subscript d key).
Proof. intros [v Hv]. unfold subscript. rewrite Hv. apply spends_ret. Qed.

Lemma spends_bind n1 n2 {A B} (m : M A) (k : A -> M B) :
  spends n1 m -> (forall a, spends n2 (k a)) -> 0 <= n1 -> 0 <= n2 ->
  spends (n1 + n2) (bind m k).
Proof.
  intros Hm Hk H1 H2 s Hroom. unfold bind.
  destruct (Hm s ltac:(lia)) as (a & s1 & new1 & -> & Ht1 & Hn1 & Hc1).
  destruct (Hk a s1 ltac:(lia)) as (a2 & s2 & new2 & -> & Ht2 & Hn2 & Hc2).
  exists a2, s2, (new1 ++ new2). split; [done|].
  split; [by rewrite Ht2, Ht1, app_assoc|].
  split; [rewrite attempts_app; lia|lia].
Qed.

Lemma spends_eq n n' {A} (m : M A) : spends n m -> n = n' -> spends n' m.
Proof. by intros Hm <-. Qed.

Lemma near_limit_below (calls : Z) : calls < 450 -> near_limit calls = false.
Proof.
  intros H. apply not_true_is_false. unfold near_limit, max_calls.
  rewrite Z.geb_le. lia.
Qed.

Ltac spend n1 n2 := apply (spends_bind n1 n2); [|intros ?|lia|lia].
Ltac free := first [ apply spends_emit; reflexivity | apply spends_read
                   | apply spends_subscript; eexists; vm_compute; reflexivity ].

Section Unthrottled.
Context (http : oracle) (disk : storage) (depth : nat).
Hypothesis unthrottled : never_throttles http.
Hypothesis writable : never_fails disk.

Lemma spends_to_csv (dir name : string) (df : DataFrame) :
  spends 0 (to_csv disk dir name df).
Proof.
  intros s _. unfold to_csv. rewrite writable.
  eexists tt, _, [_]. split; [reflexivity|]. split; [reflexivity|].
  split; [reflexivity|]. cbn. lia.
Qed.

Lemma spends_download_year k r p y f c :
  spends 1 (File04.download_year http (S depth) k r p y f c).
Proof.
  intros s Hroom. rewrite download_year_step; cbn zeta.
  set (req := year_request k r p y f c).
  pose proof (unthrottled (requests_of (trace s)) req) as Hfree.
  destruct (http (requests_of (trace s)) req) as [|code body].
  { eexists _, _, [_]. split; [done|]. split; [done|]. split; [done|]. cbn. lia. }
  cbn in Hfree. rewrite Hfree.
  assert (Hone : forall df : option DataFrame,
    exists a s' new,
      Ok df (bump (record (Get req (Response code body)) s)) = Ok a s'
      /\ trace s' = trace s ++ new /\ attempts new = 1
      /\ call_counter s <= call_counter s' <= call_counter s + 1).
  { intros df. eexists _, _, [_]. split; [done|]. split; [done|]. split; [done|]. cbn. lia. }
  destruct (code =? 200); [|apply Hone].
  destruct body as [|[rows|]]; [apply Hone| |apply Hone].
  destruct (0 <? length rows)%nat; apply Hone.
Qed.

Lemma spends_download_dataset_loop k r p years f c all :
  spends (Z.of_nat (length years))
    (File04.download_dataset_loop http (S depth) k r p years f c all).
Proof.
  revert all. induction years as [|y years IH]; intros all; [apply spends_ret|].
  intros s Hroom. rewrite download_dataset_loop_step.
  cbn [length] in Hroom. unfold max_calls in Hroom.
  destruct (spends_download_year k r p y f c s ltac:(unfold max_calls; lia))
    as (df & s1 & new1 & -> & Ht1 & Hn1 & Hc1).
  cbn zeta. change (call_counter (record (Sleep 1500) s1)) with (call_counter s1).
  assert (near_limit (call_counter s1) = false) as ->.
  { apply near_limit_below. lia. }
  destruct (IH (appended all df) (record (Sleep 1500) s1)
              ltac:(cbn [record call_counter]; unfold max_calls; lia))
    as (all' & s2 & new2 & -> & Ht2 & Hn2 & Hc2).
  exists all', s2, (new1 ++ Sleep 1500 :: new2). split; [done|]. split.
  { rewrite Ht2. cbn [record trace]. by rewrite Ht1, <- !app_assoc. }
  split.
  { change (Sleep 1500 :: new2) with ([Sleep 1500] ++ new2).
    rewrite !attempts_app. change (attempts [Sleep 1500]) with 0. cbn [length]. lia. }
  cbn [record call_counter length] in *. lia.
Qed.

Lemma spends_download_dataset k r p lo hi f c :
  spends (Z.of_nat (length (range lo (hi + 1))))
    (File04.download_dataset http (S depth) k r p lo hi f c).
Proof.
  intros s Hroom. rewrite download_dataset_unfold.
  destruct (spends_download_dataset_loop k r p (range lo (hi + 1)) f c [] s Hroom)
    as (all & s1 & new & -> & Hrest). by exists (gathered all), s1, new.
Qed.

Lemma spends_campaign_download k r p f c :
  spends 32 (File04.download_dataset http (S depth) k r p 1992 2023 f c).
Proof. eapply spends_eq; [apply spends_download_dataset|reflexivity]. Qed.

Lemma spends_save_dataset name df : spends 0 (File04.save_dataset disk name df).
Proof.
  destruct df as [d|]; [|apply spends_ret].
  unfold File04.save_dataset. spend 0 0; [apply spends_to_csv|]. spend 0 0; free.
Qed.

Lemma spends_lac_loop names lac_data :
  Forall (fun name => is_Some (COUNTRIES !! name)) names ->
  spends (32 * Z.of_nat (length names)) (File04.lac_loop http (S depth) names lac_data).
Proof.
  intros Hnames. revert lac_data.
  induction Hnames as [|name names Hname _ IH]; intros lac_data; [apply spends_ret|].
  cbn [File04.lac_loop].
  eapply spends_eq; [|cbn [length]; rewrite Nat2Z.inj_succ; reflexivity].
  replace (32 * Z.succ (Z.of_nat (length names)))
    with (0 + (0 + (32 + (0 + 32 * Z.of_nat (length names))))) by lia.
  spend 0 (0 + (32 + (0 + 32 * Z.of_nat (length names)))); [free|].
  spend 0 (32 + (0 + 32 * Z.of_nat (length names))); [by apply spends_subscript|].
  spend 32 (0 + 32 * Z.of_nat (length names)); [apply spends_campaign_download|].
  spend 0 (32 * Z.of_nat (length names)); [free|apply IH].
Qed.

Lemma spends_main : spends 256 (File04.main http disk (S depth)).
Proof.
  unfold File04.main. spend 64 192.
  { unfold File04.main_imports.
    spend 0 64; [free|]. spend 0 64; [free|]. spend 0 64; [free|]. spend 0 64; [free|].
    spend 32 32; [apply spends_campaign_download|].
    spend 0 32; [apply spends_save_dataset|].
    spend 0 32; [free|]. spend 0 32; [free|]. spend 0 32; [free|].
    spend 32 0; [apply spends_campaign_download|apply spends_save_dataset]. }
  spend 0 192.
  { intros s Hroom. unfold File04.main_gate, bind, read_call_counter.
    assert (near_limit (call_counter s) = false) as ->.
    { apply near_limit_below. unfold max_calls in Hroom. lia. }
    by apply spends_ret. }
  unfold File04.main_exports.
  spend 0 192; [free|]. spend 0 192; [free|]. spend 0 192; [free|].
  spend 32 160; [apply spends_campaign_download|].
  spend 0 160; [apply spends_save_dataset|].
  spend 160 0.
  { unfold File04.download_lac. spend 0 160; [free|].
    apply (spends_bind 160 0);
      [apply (spends_lac_loop _ _ lac_names_known)|intros lac|lia|lia].
    destruct lac as [|d lac_data]; [apply spends_ret|].
    spend 0 0; [apply spends_to_csv|]. spend 0 0; free. }
  spend 0 0; [free|]. spend 0 0; [free|]. spend 0 0; [free|]. spend 0 0; free.
Qed.

End Unthrottled.

(** X9: on a service that never answers with status 429 and a file system
    on which every write succeeds, a run of [main] that starts with fewer
    than 194 calls counted goes through the four downloads without its quota
    gate or the quota test of the loops ever stopping it: it returns after
    exactly 256 attempts, one for each of the 32 years of each of the 8
    partner tables, in either script. *)
Theorem unthrottled_campaign_is_complete http disk depth s :
  never_throttles http -> never_fails disk -> call_counter s < 194 ->
  exists s4 s5 new4 new5,
    File04.main http disk (S depth) s = Ok tt s4
    /\ File05.main http disk (S depth) s = Ok tt s5
    /\ trace s4 = trace s ++ new4 /\ attempts new4 = 256
    /\ trace s5 = trace s ++ new5 /\ attempts new5 = 256
    /\ call_counter s5 = call_counter s4
    /\ call_counter s4 <= call_counter s + 256.
Proof.
  intros Hfree Hdisk Hroom.
  destruct (spends_main http disk depth Hfree Hdisk s ltac:(unfold max_calls; lia))
    as ([] & s4 & new4 & H04 & Ht4 & Hn4 & Hc4).
  pose proof (main_alike http disk (S depth) s s (alike_refl s)) as Hagree.
  rewrite H04 in Hagree.
  destruct (File05.main http disk (S depth) s) as [[] s5|e s5] eqn:H05; [|done].
  destruct Hagree as [_ Hal].
  destruct (steps_main_05 http disk (S depth) s) as (new5 & Ht5 & _).
  rewrite H05 in Ht5. cbn [final] in Ht5.
  exists s4, s5, new4, new5. do 4 (split; [done|]). split; [done|].
  split; [|split; [symmetry; apply Hal|lia]].
  pose proof (alike_requests _ _ Hal) as Hreq.
  rewrite Ht4, Ht5, !requests_of_app in Hreq. apply app_inv_head in Hreq.
  unfold attempts in *. by rewrite <- Hreq.
Qed.

Lemma unthrottled_campaign_of_256_requests :
  exists s4 s5 new4 new5,
    File04.main always_one_row always_writable 1 initial_state = Ok tt s4
    /\ File05.main always_one_row always_writable 1 initial_state = Ok tt s5
    /\ trace s4 = trace initial_state ++ new4 /\ attempts new4 = 256
    /\ trace s5 = trace initial_state ++ new5 /\ attempts new5 = 256
    /\ call_counter s5 = call_counter s4
    /\ call_counter s4 <= call_counter initial_state + 256.
Proof.
  apply (unthrottled_campaign_is_complete always_one_row always_writable 0 initial_state).
  - intros past r. reflexivity.
  - intros written name df. reflexivity.
  - cbn. lia.
Defined.
